(** * Verification of [create_wiki_structure.py]

    The script iterates over a hard-coded list of sixteen page names,
    derives a title from each name, renders a shared template and writes
    the result to a file named after the page, reporting each file on
    standard output; it ends by printing follow-up instructions.

    The embedding follows the script line by line.  Python [str] values
    are Rocq strings (all literals of the script are ASCII), files hold
    bytes, the working directory is a finite map from names to bytes, and
    the statements of the script run in a state-and-exception monad over
    the process's world. *)

From Stdlib Require Import ZArith NArith Ascii String List.
From Stdlib.Strings Require Import Byte.
From stdpp Require Import base option list gmap strings.

#[local] Arguments String.append !s1 s2 : simpl nomatch.

(** ** Python string primitives used by the script *)

Module PyStr.

(** [c] as a one-character string. *)
Definition chr (c : ascii) : string := String c EmptyString.

(** [s[:n]] for [0 <= n]. *)
Fixpoint take (n : nat) (s : string) : string :=
  match n, s with
  | S k, String c s' => String c (take k s')
  | _, _ => EmptyString
  end.

(** [s[n:]] for [0 <= n]. *)
Fixpoint drop (n : nat) (s : string) : string :=
  match n, s with
  | S k, String _ s' => drop k s'
  | _, _ => s
  end.

(** [s[i:i+1]] for [0 <= i]: the empty string beyond the end. *)
Definition char_at (i : nat) (s : string) : string := take 1 (drop i s).

(** [s.startswith(p)]. *)
Fixpoint startswith (p s : string) : bool :=
  match p, s with
  | EmptyString, _ => true
  | String a p', String b s' => if Ascii.eqb a b then startswith p' s' else false
  | String _ _, EmptyString => false
  end.

(** [s.endswith(p)]. *)
Definition endswith (p s : string) : bool :=
  (String.length p <=? String.length s)%nat
  && String.eqb (drop (String.length s - String.length p) s) p.

(** [s.rfind(c)] for a one-character [c]: the highest index holding
    [c], or [-1].  [i] is the index of the head of [s]; [last] is the
    best index seen so far. *)
Fixpoint rfind_from (c : ascii) (i last : Z) (s : string) : Z :=
  match s with
  | EmptyString => last
  | String a s' =>
      rfind_from c (i + 1) (if Ascii.eqb a c then i else last) s'
  end.

Definition rfind (c : ascii) (s : string) : Z := rfind_from c 0 (-1) s.

(** [s.replace(old, new)] with the default count.  The scan goes left
    to right over non-overlapping occurrences; [skip] counts the
    characters of a matched occurrence still to be dropped. *)
Fixpoint replace_scan (old new : string) (skip : nat) (s : string) : string :=
  match s with
  | EmptyString => EmptyString
  | String c s' =>
      match skip with
      | S k => replace_scan old new k s'
      | O =>
          if startswith old s
          then new +:+ replace_scan old new (String.length old - 1) s'
          else String c (replace_scan old new 0 s')
      end
  end.

(** With an empty [old], Python puts [new] before every character and
    at the end. *)
Fixpoint intersperse (new s : string) : string :=
  match s with
  | EmptyString => new
  | String c s' => new +:+ String c (intersperse new s')
  end.

Definition replace (old new s : string) : string :=
  match old with
  | EmptyString => intersperse new s
  | String _ _ => replace_scan old new 0 s
  end.

(** [s.split(sep)] for a one-character separator. *)
Fixpoint split (sep : ascii) (s : string) : list string :=
  match s with
  | EmptyString => [EmptyString]
  | String c s' =>
      if Ascii.eqb c sep then EmptyString :: split sep s'
      else match split sep s' with
           | l :: ls => String c l :: ls
           | [] => [chr c]
           end
  end.

(** [sub in s]. *)
Fixpoint contains (sub s : string) : bool :=
  startswith sub s ||
  match s with
  | EmptyString => false
  | String _ s' => contains sub s'
  end.

End PyStr.

(** ** [os.path.splitext]

    [os.path] is [posixpath] or [ntpath] according to the platform; both
    delegate to [genericpath._splitext] with their own separators. *)

Inductive os_name : Type := Posix | Nt.

Module OsPath.

Definition sep (os : os_name) : ascii :=
  match os with Posix => "/"%char | Nt => "\"%char end.

Definition altsep (os : os_name) : option ascii :=
  match os with Posix => None | Nt => Some "/"%char end.

Definition extsep : ascii := "."%char.

(** The [while filenameIndex < dotIndex] loop of [_splitext]: [true]
    when some character in [filenameIndex .. dotIndex) differs from the
    extension separator (the loop returns the split), [false] when the
    loop runs out (only leading dots).  [n] is [dotIndex -
    filenameIndex], the number of iterations left. *)
Fixpoint has_non_dot (ext : ascii) (p : string) (filenameIndex : Z) (n : nat) : bool :=
  match n with
  | O => false
  | S k =>
      if negb (String.eqb (PyStr.char_at (Z.to_nat filenameIndex) p) (PyStr.chr ext))
      then true
      else has_non_dot ext p (filenameIndex + 1) k
  end.

Definition _splitext (p : string) (sep : ascii) (altsep : option ascii) (extsep : ascii)
  : string * string :=
  let sepIndex := PyStr.rfind sep p in
  let sepIndex :=
    match altsep with
    | Some a => Z.max sepIndex (PyStr.rfind a p)
    | None => sepIndex
    end in
  let dotIndex := PyStr.rfind extsep p in
  if (sepIndex <? dotIndex)%Z
     && has_non_dot extsep p (sepIndex + 1) (Z.to_nat (dotIndex - (sepIndex + 1)))
  then (PyStr.take (Z.to_nat dotIndex) p, PyStr.drop (Z.to_nat dotIndex) p)
  else (p, EmptyString).

Definition splitext (os : os_name) (p : string) : string * string :=
  _splitext p (sep os) (altsep os) extsep.

End OsPath.

(** ** Exceptions and results *)

Inductive exn : Type :=
| ValueError
| KeyError (key : string)
| IndexError
| UnicodeEncodeError
| OSError (filename : string)
| NotModelled.

Inductive result (A : Type) : Type :=
| Ok (a : A)
| Raise (e : exn).
Arguments Ok {A} a.
Arguments Raise {A} e.

(** ** [str.format] with keyword arguments

    The scanner handles literal text, the escapes [{{] and [}}], and
    replacement fields [{name}] looked up among the keyword arguments.
    Conversions ([!r]), format specifications ([:...]) and attribute or
    index access inside a field are outside the modelled fragment (the
    template of the script has none) and yield [NotModelled]. *)

Module PyFormat.

Inductive scan_state : Type :=
| Text                       (* in literal text *)
| AfterOpen                  (* just read one opening brace *)
| InField (name : string)    (* inside a field, [name] read so far *)
| AfterClose.                (* just read one closing brace in text *)

Definition emit (s : string) (r : result string) : result string :=
  match r with
  | Ok t => Ok (s +:+ t)
  | Raise e => Raise e
  end.

Fixpoint lookup_kw (kwargs : list (string * string)) (name : string) : option string :=
  match kwargs with
  | [] => None
  | (k, v) :: rest => if String.eqb k name then Some v else lookup_kw rest name
  end.

Definition is_digit (c : ascii) : bool :=
  (48 <=? nat_of_ascii c)%nat && (nat_of_ascii c <=? 57)%nat.

Fixpoint all_digits (s : string) : bool :=
  match s with
  | EmptyString => true
  | String c s' => is_digit c && all_digits s'
  end.

(** The value of the field [name]: an empty or numeric name is a
    positional index, and the script passes no positional argument. *)
Definition field_value (kwargs : list (string * string)) (name : string) : result string :=
  if all_digits name then Raise IndexError
  else match lookup_kw kwargs name with
       | Some v => Ok v
       | None => Raise (KeyError name)
       end.

Definition outside_fragment (c : ascii) : bool :=
  Ascii.eqb c "!" || Ascii.eqb c ":" || Ascii.eqb c "." || Ascii.eqb c "[".

Fixpoint scan (kwargs : list (string * string)) (st : scan_state) (s : string)
  : result string :=
  match s with
  | EmptyString =>
      match st with
      | Text => Ok EmptyString
      | AfterOpen | InField _ | AfterClose => Raise ValueError
      end
  | String c s' =>
      match st with
      | Text =>
          if Ascii.eqb c "{" then scan kwargs AfterOpen s'
          else if Ascii.eqb c "}" then scan kwargs AfterClose s'
          else emit (PyStr.chr c) (scan kwargs Text s')
      | AfterOpen =>
          if Ascii.eqb c "{" then emit "{" (scan kwargs Text s')
          else if Ascii.eqb c "}" then
            match field_value kwargs EmptyString with
            | Ok v => emit v (scan kwargs Text s')
            | Raise e => Raise e
            end
          else if outside_fragment c then Raise NotModelled
          else scan kwargs (InField (PyStr.chr c)) s'
      | InField name =>
          if Ascii.eqb c "}" then
            match field_value kwargs name with
            | Ok v => emit v (scan kwargs Text s')
            | Raise e => Raise e
            end
          else if Ascii.eqb c "{" then Raise ValueError
          else if outside_fragment c then Raise NotModelled
          else scan kwargs (InField (name +:+ PyStr.chr c)) s'
      | AfterClose =>
          if Ascii.eqb c "}" then emit "}" (scan kwargs Text s')
          else Raise ValueError
      end
  end.

Definition format (template : string) (kwargs : list (string * string)) : result string :=
  scan kwargs Text template.

End PyFormat.

(** ** Text files: newline translation and UTF-8 *)

Module TextIO.

Definition LF : string := PyStr.chr "010"%char.
Definition CRLF : string := String "013"%char LF.

(** [os.linesep]. *)
Definition linesep (os : os_name) : string :=
  match os with Posix => LF | Nt => CRLF end.

(** A file opened in text mode with the default [newline=None] writes
    every line feed as [os.linesep]. *)
Definition translate_newlines (os : os_name) (text : string) : string :=
  PyStr.replace LF (linesep os) text.

Definition byte_of_N (n : N) : byte :=
  match Byte.of_N n with
  | Some b => b
  | None => x00
  end.

(** The UTF-8 encoding of one code point; surrogates and values beyond
    U+10FFFF cannot be encoded. *)
Definition utf8_encode_cp (c : N) : option (list byte) :=
  if (c <? 0x80)%N then
    Some [byte_of_N c]
  else if (c <? 0x800)%N then
    Some [byte_of_N (N.lor 0xC0 (N.shiftr c 6));
          byte_of_N (N.lor 0x80 (N.land c 0x3F))]
  else if (c <? 0x10000)%N then
    if (0xD800 <=? c)%N && (c <=? 0xDFFF)%N then None
    else
      Some [byte_of_N (N.lor 0xE0 (N.shiftr c 12));
            byte_of_N (N.lor 0x80 (N.land (N.shiftr c 6) 0x3F));
            byte_of_N (N.lor 0x80 (N.land c 0x3F))]
  else if (c <? 0x110000)%N then
    Some [byte_of_N (N.lor 0xF0 (N.shiftr c 18));
          byte_of_N (N.lor 0x80 (N.land (N.shiftr c 12) 0x3F));
          byte_of_N (N.lor 0x80 (N.land (N.shiftr c 6) 0x3F));
          byte_of_N (N.lor 0x80 (N.land c 0x3F))]
  else None.

(** [ord(c)]. *)
Definition ord (c : ascii) : N := N_of_ascii c.

(** [text.encode('utf-8')]. *)
Fixpoint encode_utf8 (text : string) : option (list byte) :=
  match text with
  | EmptyString => Some []
  | String c rest =>
      match utf8_encode_cp (ord c), encode_utf8 rest with
      | Some bs, Some bs' => Some (bs ++ bs')
      | _, _ => None
      end
  end.

(** The bytes a text-mode UTF-8 file receives for [text]. *)
Definition file_bytes (os : os_name) (text : string) : option (list byte) :=
  encode_utf8 (translate_newlines os text).

End TextIO.

(** ** The process's world *)

(** What the process does to its surroundings, in order. *)
Inductive event : Type :=
| EvFileWritten (name : string) (content : list byte)
| EvPrint (text : string)
| EvExec (command : string).

Record World : Type := mkWorld {
  files : gmap string (list byte);     (* the current working directory *)
  stdout : string;                     (* text written to standard output *)
  trace : list event;                  (* effects so far, oldest first *)
  argv : list string;                  (* command-line arguments *)
  environ : gmap string string         (* environment variables *)
}.

(** How the operating system answers an attempt to write the file of a
    given name: the write goes through, [open] fails and leaves the
    directory as it is, or the file is opened (and truncated) and the
    write fails after [written] bytes. *)
Inductive io_answer : Type :=
| IoOk
| OpenFails
| WriteFails (written : nat).

Definition oracle : Type := string -> io_answer.

(** ** Statements: state and exceptions *)

Definition M (A : Type) : Type := World -> result A * World.

#[global] Instance M_ret : MRet M := fun A a w => (Ok a, w).

#[global] Instance M_bind : MBind M := fun A B f m w =>
  match m w with
  | (Ok a, w') => f a w'
  | (Raise e, w') => (Raise e, w')
  end.

Definition raise {A : Type} (e : exn) : M A := fun w => (Raise e, w).

Definition lift {A : Type} (r : result A) : M A := fun w => (r, w).

Definition set_file (name : string) (content : list byte) : M unit := fun w =>
  (Ok tt, mkWorld (<[name := content]> (files w)) (stdout w) (trace w) (argv w) (environ w)).

Definition record (e : event) : M unit := fun w =>
  (Ok tt, mkWorld (files w) (stdout w) (trace w ++ [e]) (argv w) (environ w)).

(** [print(text)]: the text and a line feed go to standard output. *)
Definition print (text : string) : M unit := fun w =>
  (Ok tt, mkWorld (files w) (stdout w +:+ text +:+ TextIO.LF)
                  (trace w ++ [EvPrint text]) (argv w) (environ w)).

(** [open(name, 'w', encoding='utf-8')]: creates or truncates the file
    and returns the handle, here the name. *)
Definition open_w (env : oracle) (name : string) : M string :=
  match env name with
  | OpenFails => raise (OSError name)
  | IoOk | WriteFails _ => _ ← set_file name []; mret name
  end.

(** [f.write(text)] followed by the close at the end of the [with]
    block, where the buffered bytes reach the file. *)
Definition write_close (env : oracle) (os : os_name) (f : string) (text : string) : M unit :=
  match TextIO.file_bytes os text with
  | None => raise UnicodeEncodeError
  | Some bs =>
      match env f with
      | WriteFails n => _ ← set_file f (firstn n bs); raise (OSError f)
      | IoOk | OpenFails =>
          (* [OpenFails] does not reach this point: [open_w] has raised *)
          _ ← set_file f bs; record (EvFileWritten f bs)
      end
  end.

(** [for x in xs: body]. *)
Fixpoint for_each {A : Type} (xs : list A) (body : A -> M unit) : M unit :=
  match xs with
  | [] => mret tt
  | x :: rest => _ ← body x; for_each rest body
  end.

(** ** The script *)

Definition pages : list string :=
  [ "Home.md";
    "Project-Structure.md";
    "Development-Setup.md";
    "Setup-VS-Code-Miniconda.md";
    "Setup-Ollama-Model.md";
    "Tools-Overview.md";
    "Guide-VS-Code.md";
    "Guide-Conda.md";
    "Guide-Ollama.md";
    "Guide-CrewAI.md";
    "Guide-Selenium.md";
    "Guide-BeautifulSoup.md";
    "Guide-AnythingLLM.md";
    "Guide-LangChain.md";
    "Guide-Docker.md";
    "Guide-WSL.md" ].

Definition placeholder_content : string := Eval cbv in
  "# {title}" +:+ TextIO.LF +:+
  TextIO.LF +:+
  "[This is a placeholder. Original content to be migrated.]" +:+ TextIO.LF +:+
  TextIO.LF +:+
  "## Navigation" +:+ TextIO.LF +:+
  "- [Home](Home)" +:+ TextIO.LF +:+
  "- [Project Structure](Project-Structure)" +:+ TextIO.LF +:+
  "- [Development Setup](Development-Setup)" +:+ TextIO.LF +:+
  "- [Tools Overview](Tools-Overview)" +:+ TextIO.LF.

(** A double quote character, for the commit command. *)
Definition dquote : string := PyStr.chr "034"%char.

Section Script.

Variable os : os_name.
Variable env : oracle.

(** [os.path.splitext(page)[0].replace('-', ' ')]. *)
Definition title (page : string) : string :=
  PyStr.replace "-" " " (fst (OsPath.splitext os page)).

(** [placeholder_content.format(title=title)]. *)
Definition render (page : string) : result string :=
  PyFormat.format placeholder_content [("title", title page)].

(** One iteration of the loop. *)
Definition create_page (page : string) : M unit :=
  let title := title page in
  f ← open_w env page;
  text ← lift (PyFormat.format placeholder_content [("title", title)]);
  _ ← write_close env os f text;
  print ("Created " +:+ page).

Definition next_steps : list string :=
  [ TextIO.LF +:+ "Next steps:";
    "1. Initialize git repository:";
    "   git init";
    "2. Add all files:";
    "   git add .";
    "3. Make initial commit:";
    "   git commit -m " +:+ dquote +:+ "Initial wiki structure with valid filenames" +:+ dquote;
    "4. Add GitHub wiki remote:";
    "   git remote add origin https://github.com/markvshaney/LLM_Project.wiki.git";
    "5. Push to GitHub (you may need to force push):";
    "   git push -f origin master" ].

Definition main : M unit :=
  _ ← for_each pages create_page;
  for_each next_steps print.

End Script.

(** ** Running the script as a process *)

Inductive outcome : Type :=
| Completed
| Uncaught (e : exn).

(** The interpreter exits with status 0 at the end of the script and with
    status 1 on an uncaught exception. *)
Definition exit_status (o : outcome) : Z :=
  match o with
  | Completed => 0
  | Uncaught _ => 1
  end.

Definition run (os : os_name) (env : oracle) (w : World) : outcome * World :=
  match main os env w with
  | (Ok _, w') => (Completed, w')
  | (Raise e, w') => (Uncaught e, w')
  end.

(** Twice in succession: the second run starts in the world the first
    one left.  The second run happens whatever the first one's outcome. *)
Definition run_twice (os : os_name) (env1 env2 : oracle) (w : World)
  : outcome * outcome * World :=
  let '(o1, w1) := run os env1 w in
  let '(o2, w2) := run os env2 w1 in
  (o1, o2, w2).

(** ** The specification's vocabulary

    These definitions follow the words of the specification, not the
    code; the theorems below compare them with the script. *)

Module Spec.

(** The name up to, and without, its last dot; [None] when the name has
    no dot. *)
Fixpoint before_last_dot (name : string) : option string :=
  match name with
  | EmptyString => None
  | String c rest =>
      match before_last_dot rest with
      | Some stem => Some (String c stem)
      | None => if Ascii.eqb c "." then Some EmptyString else None
      end
  end.

Definition remove_extension (name : string) : string :=
  match before_last_dot name with
  | Some stem => stem
  | None => name
  end.

Fixpoint hyphens_to_spaces (s : string) : string :=
  match s with
  | EmptyString => EmptyString
  | String c rest =>
      String (if Ascii.eqb c "-" then " "%char else c) (hyphens_to_spaces rest)
  end.

Definition title (page : string) : string :=
  hyphens_to_spaces (remove_extension page).

Fixpoint has_hyphen (s : string) : bool :=
  match s with
  | EmptyString => false
  | String c rest => Ascii.eqb c "-" || has_hyphen rest
  end.

Definition line (s : string) : string := s +:+ TextIO.LF.

Fixpoint unlines (ls : list string) : string :=
  match ls with
  | [] => EmptyString
  | l :: rest => line l +:+ unlines rest
  end.

(** The pages the navigation block points to, in order. *)
Definition nav_pages : list string :=
  [ "Home.md"; "Project-Structure.md"; "Development-Setup.md"; "Tools-Overview.md" ].

(** A link with a human-readable label and a target. *)
Definition link (label target : string) : string :=
  "- [" +:+ label +:+ "](" +:+ target +:+ ")".

Definition nav_link (page : string) : string :=
  link (title page) (remove_extension page).

Definition navigation_block : string :=
  unlines ("## Navigation" :: map nav_link nav_pages).

Definition notice : string :=
  "[This is a placeholder. Original content to be migrated.]".

(** The template, cut at its placeholder. *)
Definition before_placeholder : string := "# ".
Definition placeholder : string := "{title}".
Definition after_placeholder : string :=
  unlines [ ""; ""; notice; "" ] +:+ navigation_block.

(** The template with a title in the place of the placeholder. *)
Definition substitute (title : string) : string :=
  before_placeholder +:+ title +:+ after_placeholder.

Definition created_line (page : string) : string := line ("Created " +:+ page).

Definition created_lines (ps : list string) : string :=
  unlines (map (String.append "Created ") ps).

(** The lines of the file the end-to-end example expects for the page
    "Home.md". *)
Definition home_lines : list string :=
  [ "# Home";
    "";
    "[This is a placeholder. Original content to be migrated.]";
    "";
    "## Navigation";
    "- [Home](Home)";
    "- [Project Structure](Project-Structure)";
    "- [Development Setup](Development-Setup)";
    "- [Tools Overview](Tools-Overview)" ].

Definition non_blank (ls : list string) : list string :=
  filter (fun l => l <> "") ls.

(** Number of occurrences of a character. *)
Fixpoint count_char (c : ascii) (s : string) : nat :=
  match s with
  | EmptyString => 0
  | String a rest => (if Ascii.eqb a c then 1 else 0) + count_char c rest
  end.

End Spec.

(** ** The worlds a run leaves behind

    Closed forms of the world after the statements of the script, used
    to state what each run does. *)

Section Worlds.

Variable os : os_name.

(** The text of the page, as the script renders it when rendering
    succeeds. *)
Definition page_text (page : string) : string :=
  match render os page with
  | Ok text => text
  | Raise _ => EmptyString
  end.

Definition page_bytes (page : string) : list byte :=
  match TextIO.file_bytes os (page_text page) with
  | Some bs => bs
  | None => []
  end.

(** The effects of a successful iteration for [page]. *)
Definition page_events (page : string) : list event :=
  [ EvFileWritten page (page_bytes page); EvPrint ("Created " +:+ page) ].

(** After a successful iteration for [page]. *)
Definition page_done (w : World) (page : string) : World :=
  mkWorld (<[page := page_bytes page]> (files w))
          (stdout w +:+ Spec.created_line page)
          (trace w ++ page_events page)
          (argv w) (environ w).

Definition pages_done (ps : list string) (w : World) : World :=
  fold_left page_done ps w.

(** After a failed iteration for [page]. *)
Definition page_failed (env : oracle) (w : World) (page : string) : World :=
  match env page with
  | WriteFails n =>
      mkWorld (<[page := firstn n (page_bytes page)]> (files w))
              (stdout w) (trace w) (argv w) (environ w)
  | IoOk | OpenFails => w
  end.

End Worlds.

Definition print_done (w : World) (text : string) : World :=
  mkWorld (files w) (stdout w +:+ Spec.line text)
          (trace w ++ [EvPrint text]) (argv w) (environ w).

Definition printed (ls : list string) (w : World) : World :=
  fold_left print_done ls w.

Definition is_exec (e : event) : bool :=
  match e with
  | EvExec _ => true
  | EvFileWritten _ _ | EvPrint _ => false
  end.

Definition written_names (t : list event) : list string :=
  flat_map (fun e => match e with
                     | EvFileWritten n _ => [n]
                     | EvPrint _ | EvExec _ => []
                     end) t.

Definition printed_texts (t : list event) : list string :=
  flat_map (fun e => match e with
                     | EvPrint s => [s]
                     | EvFileWritten _ _ | EvExec _ => []
                     end) t.

(** The effects of a run that started in [w] and ended in [w']. *)
Definition new_events (w w' : World) : list event :=
  drop (length (trace w)) (trace w').

(** The text of a run that started in [w] and ended in [w'], when the
    earlier text is still in front of it. *)
Definition new_output (w w' : World) : string :=
  PyStr.drop (String.length (stdout w)) (stdout w').

(** The system lets the file of name [p] be written. *)
Definition accepts (env : oracle) (p : string) : Prop := env p = IoOk.

(** What the run did, as a function of the pages that went through. *)
Definition run_did (os : os_name) (env : oracle) (w : World)
           (done rest : list string) : Prop :=
  let o := fst (run os env w) in
  let w' := snd (run os env w) in
  pages = done ++ rest /\
  Forall (accepts env) done /\
  match rest with
  | [] => o = Completed
  | q :: _ => env q <> IoOk /\ o = Uncaught (OSError q)
  end /\
  trace w' = trace w ++ flat_map (page_events os) done
               ++ match rest with [] => map EvPrint next_steps | _ => [] end /\
  stdout w' = stdout w +:+ Spec.created_lines done
               +:+ match rest with [] => Spec.unlines next_steps | _ => "" end /\
  (forall p, p ∈ done -> files w' !! p = Some (page_bytes os p)) /\
  (forall n, n ∉ pages -> files w' !! n = files w !! n) /\
  argv w' = argv w /\
  environ w' = environ w.

(** A process that has just started in an empty directory. *)
Definition fresh_world : World := mkWorld ∅ "" [] [] ∅.

Definition all_ok : oracle := fun _ => IoOk.

(** A directory that stops accepting files after the first five pages. *)
Definition fails_at_tools : oracle := fun name =>
  if String.eqb name "Tools-Overview.md" then OpenFails else IoOk.

Definition read_only : oracle := fun _ => OpenFails.

Definition disk_full_at_conda : oracle := fun name =>
  if String.eqb name "Guide-Conda.md" then WriteFails 7 else IoOk.

(** A directory where only a file that is not a page is protected. *)
Definition notes_protected : oracle := fun name =>
  if String.eqb name "notes.txt" then OpenFails else IoOk.

(** A process started with arguments and an environment, in a directory
    that already holds files, one of them under a page's name. *)
Definition busy_world : World :=
  mkWorld (<["Home.md" := [x6f; x6c; x64]]> (<["notes.txt" := [x68; x69]]> ∅))
          "" [] ["create_wiki_structure.py"; "--dry-run"]
          (<["HOME" := "/home/wiki"]> ∅).

(** ** Vocabulary for further properties *)

Module Text.

(** Every character is below 128. *)
Fixpoint is_ascii (s : string) : bool :=
  match s with
  | EmptyString => true
  | String c rest => (N_of_ascii c <? 128)%N && is_ascii rest
  end.

(** No brace, opening or closing. *)
Fixpoint brace_free (s : string) : bool :=
  match s with
  | EmptyString => true
  | String c rest =>
      negb (Ascii.eqb c "{") && negb (Ascii.eqb c "}") && brace_free rest
  end.

(** ASCII upper-case letters to lower case. *)
Definition lower_char (c : ascii) : ascii :=
  let n := nat_of_ascii c in
  if (65 <=? n)%nat && (n <=? 90)%nat then ascii_of_nat (n + 32) else c.

Fixpoint lower (s : string) : string :=
  match s with
  | EmptyString => EmptyString
  | String c rest => String (lower_char c) (lower rest)
  end.

(** The part of a name before its first dot. *)
Fixpoint before_first_dot (s : string) : string :=
  match s with
  | EmptyString => EmptyString
  | String c rest =>
      if Ascii.eqb c "." then EmptyString else String c (before_first_dot rest)
  end.

End Text.

(** What Windows asks of a file name: no control character and none of
    the characters reserved by the system, no space or dot at the end,
    and a base name that is not a device name. *)
Module Windows.

Definition reserved_char (c : ascii) : bool :=
  (nat_of_ascii c <? 32)%nat
  || Ascii.eqb c "<" || Ascii.eqb c ">" || Ascii.eqb c ":"
  || Ascii.eqb c "034" || Ascii.eqb c "/" || Ascii.eqb c "\"
  || Ascii.eqb c "|" || Ascii.eqb c "?" || Ascii.eqb c "*".

Fixpoint has_reserved_char (s : string) : bool :=
  match s with
  | EmptyString => false
  | String c rest => reserved_char c || has_reserved_char rest
  end.

Definition device_names : list string :=
  [ "con"; "prn"; "aux"; "nul";
    "com1"; "com2"; "com3"; "com4"; "com5"; "com6"; "com7"; "com8"; "com9";
    "lpt1"; "lpt2"; "lpt3"; "lpt4"; "lpt5"; "lpt6"; "lpt7"; "lpt8"; "lpt9" ].

Definition safe_name (name : string) : bool :=
  negb (String.eqb name "")
  && negb (has_reserved_char name)
  && negb (PyStr.endswith " " name)
  && negb (PyStr.endswith "." name)
  && negb (existsb (String.eqb (Text.lower (Text.before_first_dot name))) device_names).

End Windows.

(** Case analysis on membership in the fixed list of pages. *)
Ltac each_page H :=
  unfold pages in H;
  repeat (apply elem_of_cons in H as [-> | H]);
  [ .. | by apply elem_of_nil in H ].

(** * Properties *)

(** ** Strings *)

Lemma append_assoc (a b c : string) : (a +:+ b) +:+ c = a +:+ (b +:+ c).
Proof. induction a as [|x a IH]; simpl; [reflexivity | now rewrite IH]. Qed.

Lemma append_empty_r (a : string) : a +:+ "" = a.
Proof. induction a as [|x a IH]; simpl; [reflexivity | now rewrite IH]. Qed.

(** Replacing the one-character string "-" by " " is the character-wise
    substitution of the specification. *)
Lemma replace_hyphen_spec (s : string) :
  PyStr.replace "-" " " s = Spec.hyphens_to_spaces s.
Proof.
  unfold PyStr.replace.
  induction s as [|c s IH]; [reflexivity|].
  cbn [PyStr.replace_scan Spec.hyphens_to_spaces PyStr.startswith String.length Nat.sub].
  rewrite Ascii.eqb_sym.
  destruct (Ascii.eqb c "-"); simpl; now rewrite IH.
Qed.

Lemma hyphens_to_spaces_clean (s : string) :
  Spec.has_hyphen (Spec.hyphens_to_spaces s) = false.
Proof.
  induction s as [|c s IH]; [reflexivity|].
  simpl. rewrite IH, orb_false_r.
  destruct (Ascii.eqb c "-") eqn:E; [reflexivity | exact E].
Qed.

(** ** Rendering *)

(** Rendering never fails, whatever the title (it is substituted, not
    scanned), and puts the title in the place of the placeholder. *)
Lemma format_title (t : string) :
  PyFormat.format placeholder_content [("title", t)] = Ok (Spec.substitute t).
Proof. reflexivity. Qed.

Lemma render_ok (os : os_name) (page : string) :
  render os page = Ok (Spec.substitute (title os page)).
Proof. apply format_title. Qed.

Lemma page_text_eq (os : os_name) (page : string) :
  page_text os page = Spec.substitute (title os page).
Proof. unfold page_text. now rewrite render_ok. Qed.

(** ** Encoding *)

(** Every character of a Rocq string is a code point below 256, which
    UTF-8 encodes in one or two bytes. *)
Lemma utf8_encode_cp_ord (c : ascii) :
  is_Some (TextIO.utf8_encode_cp (TextIO.ord c)).
Proof.
  unfold TextIO.utf8_encode_cp, TextIO.ord.
  pose proof (N_ascii_bounded c) as Hb.
  destruct (N.ltb_spec (N_of_ascii c) 128); [eauto|].
  destruct (N.ltb_spec (N_of_ascii c) 2048); [eauto | lia].
Qed.

Lemma encode_utf8_total (text : string) : is_Some (TextIO.encode_utf8 text).
Proof.
  induction text as [|c text [bs' IH]]; simpl; [eauto|].
  destruct (utf8_encode_cp_ord c) as [bs Hc].
  rewrite Hc, IH. eauto.
Qed.

Lemma file_bytes_total (os : os_name) (text : string) :
  is_Some (TextIO.file_bytes os text).
Proof. apply encode_utf8_total. Qed.

Lemma page_bytes_eq (os : os_name) (page : string) :
  TextIO.file_bytes os (Spec.substitute (title os page)) = Some (page_bytes os page).
Proof.
  unfold page_bytes. rewrite page_text_eq.
  destruct (file_bytes_total os (Spec.substitute (title os page))) as [bs ->].
  reflexivity.
Qed.

(** ** One iteration *)

Section Iteration.

Variable os : os_name.
Variable env : oracle.

Lemma create_page_ok (page : string) (w : World) :
  env page = IoOk ->
  create_page os env page w = (Ok tt, page_done os w page).
Proof.
  intros Hok.
  unfold create_page, open_w, write_close, mbind, M_bind, lift.
  rewrite Hok, format_title, page_bytes_eq. simpl. rewrite Hok. simpl.
  unfold page_done, print, Spec.created_line, Spec.line. simpl.
  rewrite insert_insert_eq, <- app_assoc. reflexivity.
Qed.

Lemma create_page_fails (page : string) (w : World) :
  env page <> IoOk ->
  create_page os env page w = (Raise (OSError page), page_failed os env w page).
Proof.
  intros Hbad.
  unfold create_page, open_w, write_close, page_failed, mbind, M_bind, lift.
  destruct (env page) as [| |n] eqn:E; [congruence | destruct w; reflexivity |].
  rewrite format_title. unfold set_file, mret, M_ret. cbv beta iota.
  rewrite page_bytes_eq, E. simpl.
  rewrite insert_insert_eq. reflexivity.
Qed.

(** The loop over any list of names: every name goes through, or the
    loop stops at the first name the system refuses. *)
Lemma for_each_create_page (ps : list string) (w : World) :
  (Forall (fun p => env p = IoOk) ps /\
   for_each ps (create_page os env) w = (Ok tt, pages_done os ps w))
  \/
  (exists done q rest,
      ps = done ++ q :: rest /\
      Forall (fun p => env p = IoOk) done /\
      env q <> IoOk /\
      for_each ps (create_page os env) w =
        (Raise (OSError q), page_failed os env (pages_done os done w) q)).
Proof.
  revert w. induction ps as [|p ps IH]; intros w.
  - left. split; [constructor | reflexivity].
  - destruct (env p) eqn:E.
    + destruct (IH (page_done os w p)) as [[Hall Hrun] | (done & q & rest & -> & Hall & Hq & Hrun)].
      * left. split; [constructor; assumption|].
        simpl. unfold mbind, M_bind. rewrite create_page_ok by assumption. exact Hrun.
      * right. exists (p :: done), q, rest.
        split; [reflexivity|]. split; [constructor; assumption|]. split; [assumption|].
        simpl. unfold mbind, M_bind. rewrite create_page_ok by assumption. exact Hrun.
    + right. exists [], p, ps. split; [reflexivity|]. split; [constructor|].
      split; [congruence|].
      simpl. unfold mbind, M_bind. rewrite create_page_fails by congruence. reflexivity.
    + right. exists [], p, ps. split; [reflexivity|]. split; [constructor|].
      split; [congruence|].
      simpl. unfold mbind, M_bind. rewrite create_page_fails by congruence. reflexivity.
Qed.

End Iteration.

Lemma for_each_print (ls : list string) (w : World) :
  for_each ls print w = (Ok tt, printed ls w).
Proof.
  revert w. induction ls as [|l ls IH]; intros w; [reflexivity|].
  simpl. unfold mbind, M_bind. simpl. apply IH.
Qed.

(** ** Closed forms of the worlds *)

Section WorldFacts.

Variable os : os_name.

Lemma pages_done_stdout (ps : list string) (w : World) :
  stdout (pages_done os ps w) = stdout w +:+ Spec.created_lines ps.
Proof.
  revert w. induction ps as [|p ps IH]; intros w.
  - simpl. now rewrite append_empty_r.
  - unfold pages_done in *. simpl. rewrite IH. simpl.
    unfold Spec.created_lines, Spec.created_line. simpl.
    now rewrite append_assoc.
Qed.

Lemma pages_done_trace (ps : list string) (w : World) :
  trace (pages_done os ps w) = trace w ++ flat_map (page_events os) ps.
Proof.
  revert w. induction ps as [|p ps IH]; intros w.
  - simpl. now rewrite app_nil_r.
  - unfold pages_done in *. cbn [fold_left flat_map]. rewrite IH.
    unfold page_done at 1. cbn [trace]. now rewrite <- app_assoc.
Qed.

Lemma pages_done_argv (ps : list string) (w : World) :
  argv (pages_done os ps w) = argv w.
Proof.
  revert w. induction ps as [|p ps IH]; intros w; [reflexivity|].
  unfold pages_done in *. simpl. now rewrite IH.
Qed.

Lemma pages_done_environ (ps : list string) (w : World) :
  environ (pages_done os ps w) = environ w.
Proof.
  revert w. induction ps as [|p ps IH]; intros w; [reflexivity|].
  unfold pages_done in *. simpl. now rewrite IH.
Qed.

Lemma pages_done_lookup_in (ps : list string) (w : World) (name : string) :
  name ∈ ps -> files (pages_done os ps w) !! name = Some (page_bytes os name).
Proof.
  revert w. induction ps as [|p ps IH] using rev_ind; intros w Hin.
  - by apply elem_of_nil in Hin.
  - unfold pages_done in *. rewrite fold_left_app. simpl.
    destruct (decide (name = p)) as [->|Hne].
    + apply lookup_insert_eq.
    + rewrite lookup_insert_ne by congruence.
      apply IH. apply elem_of_app in Hin as [Hin|Hin]; [assumption|].
      apply list_elem_of_singleton in Hin. congruence.
Qed.

Lemma pages_done_lookup_out (ps : list string) (w : World) (name : string) :
  name ∉ ps -> files (pages_done os ps w) !! name = files w !! name.
Proof.
  revert w. induction ps as [|p ps IH]; intros w Hout; [reflexivity|].
  unfold pages_done in *. simpl.
  apply not_elem_of_cons in Hout as [Hne Hout].
  rewrite IH by assumption. simpl. now apply lookup_insert_ne.
Qed.

Lemma pages_done_dom (ps : list string) (w : World) :
  dom (files (pages_done os ps w)) = dom (files w) ∪ list_to_set ps.
Proof.
  revert w. induction ps as [|p ps IH]; intros w.
  - simpl. now rewrite union_empty_r_L.
  - unfold pages_done in *. cbn [fold_left]. rewrite IH. simpl.
    rewrite dom_insert_L, (union_comm_L {[p]}), union_assoc_L. reflexivity.
Qed.

(** Writing the pages again over a directory that has them changes
    nothing in it. *)
Lemma pages_done_again (ps : list string) (w : World) :
  (forall p, p ∈ ps -> files w !! p = Some (page_bytes os p)) ->
  files (pages_done os ps w) = files w.
Proof.
  intros Hhas. apply map_eq. intros name.
  destruct (decide (name ∈ ps)) as [Hin|Hout].
  - rewrite pages_done_lookup_in by assumption. symmetry. now apply Hhas.
  - now apply pages_done_lookup_out.
Qed.

End WorldFacts.

Lemma printed_stdout (ls : list string) (w : World) :
  stdout (printed ls w) = stdout w +:+ Spec.unlines ls.
Proof.
  revert w. induction ls as [|l ls IH]; intros w.
  - simpl. now rewrite append_empty_r.
  - unfold printed in *. simpl. rewrite IH. simpl. now rewrite append_assoc.
Qed.

Lemma printed_trace (ls : list string) (w : World) :
  trace (printed ls w) = trace w ++ map EvPrint ls.
Proof.
  revert w. induction ls as [|l ls IH]; intros w.
  - simpl. now rewrite app_nil_r.
  - unfold printed in *. simpl. rewrite IH. simpl. now rewrite <- app_assoc.
Qed.

Lemma printed_files (ls : list string) (w : World) :
  files (printed ls w) = files w.
Proof.
  revert w. induction ls as [|l ls IH]; intros w; [reflexivity|].
  unfold printed in *. simpl. now rewrite IH.
Qed.

Lemma printed_argv (ls : list string) (w : World) :
  argv (printed ls w) = argv w.
Proof.
  revert w. induction ls as [|l ls IH]; intros w; [reflexivity|].
  unfold printed in *. simpl. now rewrite IH.
Qed.

Lemma printed_environ (ls : list string) (w : World) :
  environ (printed ls w) = environ w.
Proof.
  revert w. induction ls as [|l ls IH]; intros w; [reflexivity|].
  unfold printed in *. simpl. now rewrite IH.
Qed.

(** ** The two ways a run can go *)

Lemma run_cases (os : os_name) (env : oracle) (w : World) :
  (Forall (accepts env) pages /\
   run os env w = (Completed, printed next_steps (pages_done os pages w)))
  \/
  (exists done q rest,
      pages = done ++ q :: rest /\
      Forall (accepts env) done /\
      env q <> IoOk /\
      run os env w =
        (Uncaught (OSError q), page_failed os env (pages_done os done w) q)).
Proof.
  unfold run, main, mbind, M_bind.
  destruct (for_each_create_page os env pages w)
    as [[Hall Hrun] | (done & q & rest & Hsplit & Hall & Hq & Hrun)].
  - left. split; [exact Hall|]. rewrite Hrun, for_each_print. reflexivity.
  - right. exists done, q, rest. repeat split; try assumption.
    rewrite Hrun. reflexivity.
Qed.

Lemma run_completed (os : os_name) (env : oracle) (w : World) :
  fst (run os env w) = Completed ->
  Forall (accepts env) pages /\
  snd (run os env w) = printed next_steps (pages_done os pages w).
Proof.
  intros Hc.
  destruct (run_cases os env w) as [[Hall Hrun] | (done & q & rest & _ & _ & _ & Hrun)];
    rewrite Hrun in *; [now split | discriminate].
Qed.

Lemma pages_NoDup : NoDup pages.
Proof. apply (bool_decide_unpack _). vm_compute. reflexivity. Qed.

Lemma written_names_pages (os : os_name) (ps : list string) :
  written_names (flat_map (page_events os) ps) = ps.
Proof. induction ps as [|p ps IH]; simpl; [reflexivity | now rewrite IH]. Qed.

Lemma printed_texts_pages (os : os_name) (ps : list string) :
  printed_texts (flat_map (page_events os) ps) = map (String.append "Created ") ps.
Proof. induction ps as [|p ps IH]; simpl; [reflexivity | now rewrite IH]. Qed.

Lemma drop_string_app (a b : string) : PyStr.drop (String.length a) (a +:+ b) = b.
Proof. induction a as [|c a IH]; simpl; [now destruct b | exact IH]. Qed.

Lemma new_events_app (w w' : World) (evs : list event) :
  trace w' = trace w ++ evs -> new_events w w' = evs.
Proof. unfold new_events. intros ->. now rewrite drop_app_length. Qed.

Lemma new_output_app (w w' : World) (out : string) :
  stdout w' = stdout w +:+ out -> new_output w w' = out.
Proof. unfold new_output. intros ->. apply drop_string_app. Qed.

Lemma run_summary (os : os_name) (env : oracle) (w : World) :
  exists done rest, run_did os env w done rest.
Proof.
  destruct (run_cases os env w)
    as [[Hall Hrun] | (done & q & rest & Hsplit & Hall & Hq & Hrun)].
  - exists pages, []. unfold run_did. rewrite Hrun. cbn [fst snd].
    split; [now rewrite app_nil_r|]. split; [exact Hall|]. split; [reflexivity|].
    split; [now rewrite printed_trace, pages_done_trace, <- app_assoc|].
    split; [now rewrite printed_stdout, pages_done_stdout, append_assoc|].
    split; [intros p Hp; rewrite printed_files; now apply pages_done_lookup_in|].
    split; [intros n Hn; rewrite printed_files; now apply pages_done_lookup_out|].
    split; [now rewrite printed_argv, pages_done_argv|].
    now rewrite printed_environ, pages_done_environ.
  - exists done, (q :: rest). unfold run_did. rewrite Hrun. cbn [fst snd].
    cbv beta iota zeta.
    assert (Hq_out : q ∉ done).
    { pose proof pages_NoDup as Hnd. rewrite Hsplit in Hnd.
      apply NoDup_app in Hnd as (_ & Hdisj & _).
      intros Hin. apply (Hdisj q Hin). apply list_elem_of_here. }
    assert (Hfiles : forall n, n <> q ->
              files (page_failed os env (pages_done os done w) q) !! n
              = files (pages_done os done w) !! n).
    { intros n Hn. unfold page_failed. destruct (env q); try reflexivity.
      simpl. apply lookup_insert_ne. congruence. }
    split; [exact Hsplit|]. split; [exact Hall|]. split; [now split|].
    split.
    { rewrite app_nil_r, <- (pages_done_trace os done w).
      unfold page_failed. now destruct (env q). }
    split.
    { rewrite append_empty_r, <- (pages_done_stdout os done w).
      unfold page_failed. now destruct (env q). }
    split.
    { intros p Hp. rewrite Hfiles by (intros ->; contradiction).
      now apply pages_done_lookup_in. }
    split.
    { intros n Hn. rewrite Hfiles.
      - apply pages_done_lookup_out. intros Hin. apply Hn.
        rewrite Hsplit. apply elem_of_app. now left.
      - intros ->. apply Hn. rewrite Hsplit. apply elem_of_app. right.
        apply list_elem_of_here. }
    split.
    { rewrite <- (pages_done_argv os done w). unfold page_failed. now destruct (env q). }
    rewrite <- (pages_done_environ os done w). unfold page_failed. now destruct (env q).
Qed.

Lemma run_did_completed (os : os_name) (env : oracle) (w : World)
      (done rest : list string) :
  run_did os env w done rest ->
  fst (run os env w) = Completed ->
  done = pages /\ rest = [].
Proof.
  intros (Hsplit & _ & Hout & _) Hc.
  destruct rest as [|q rest].
  - rewrite app_nil_r in Hsplit. now split.
  - destruct Hout as [_ Hout]. congruence.
Qed.

(** ** Titles *)

(** C1. For every page name of the fixed list, the title the script
    derives is the page name with its trailing extension ".md" removed
    and then every hyphen replaced by a space; the name
    "Setup-VS-Code-Miniconda.md" gives "Setup VS Code Miniconda". *)
Theorem title_is_spec_title (os : os_name) (page : string) :
  page ∈ pages ->
  page = Spec.remove_extension page +:+ ".md" /\
  title os page = Spec.hyphens_to_spaces (Spec.remove_extension page) /\
  title os "Setup-VS-Code-Miniconda.md" = "Setup VS Code Miniconda".
Proof.
  intros Hin. unfold title. rewrite !replace_hyphen_spec.
  each_page Hin; destruct os; vm_compute; repeat split; reflexivity.
Qed.

Lemma title_is_spec_title_witness :
  "Guide-LangChain.md" ∈ pages /\
  title Nt "Guide-LangChain.md" = "Guide LangChain".
Proof.
  assert (Hin : "Guide-LangChain.md" ∈ pages) by (vm_compute; repeat constructor).
  split; [exact Hin|].
  destruct (title_is_spec_title Nt "Guide-LangChain.md" Hin) as (_ & -> & _).
  reflexivity.
Defined.

(** C10. For every page name of the fixed list, the derived title is not
    empty, holds no hyphen and does not end in ".md". *)
Theorem title_well_formed (os : os_name) (page : string) :
  page ∈ pages ->
  title os page <> "" /\
  Spec.has_hyphen (title os page) = false /\
  PyStr.contains "-" (title os page) = false /\
  PyStr.endswith ".md" (title os page) = false.
Proof.
  intros Hin. split; [|split; [|split]].
  - each_page Hin; destruct os; vm_compute; discriminate.
  - unfold title. rewrite replace_hyphen_spec. apply hyphens_to_spaces_clean.
  - each_page Hin; destruct os; vm_compute; reflexivity.
  - each_page Hin; destruct os; vm_compute; reflexivity.
Qed.

Lemma title_well_formed_witness :
  "Project-Structure.md" ∈ pages /\
  title Posix "Project-Structure.md" <> "" /\
  Spec.has_hyphen (title Posix "Project-Structure.md") = false /\
  PyStr.contains "-" (title Posix "Project-Structure.md") = false /\
  PyStr.endswith ".md" (title Posix "Project-Structure.md") = false.
Proof.
  assert (Hin : "Project-Structure.md" ∈ pages) by (vm_compute; repeat constructor).
  split; [exact Hin|].
  exact (title_well_formed Posix "Project-Structure.md" Hin).
Defined.

(** ** Files *)

Lemma run_completed_lookup (os : os_name) (env : oracle) (w : World) (page : string) :
  fst (run os env w) = Completed ->
  page ∈ pages ->
  files (snd (run os env w)) !! page = Some (page_bytes os page).
Proof.
  intros Hc Hin. destruct (run_completed os env w Hc) as [_ ->].
  rewrite printed_files. now apply pages_done_lookup_in.
Qed.

Lemma run_completed_events (os : os_name) (env : oracle) (w : World) :
  fst (run os env w) = Completed ->
  new_events w (snd (run os env w))
  = flat_map (page_events os) pages ++ map EvPrint next_steps.
Proof.
  intros Hc. destruct (run_completed os env w Hc) as [_ ->].
  apply new_events_app.
  now rewrite printed_trace, pages_done_trace, <- app_assoc.
Qed.

(** C2. After a run that completes, every page name of the fixed list
    names a file of the working directory (the name has no directory
    part), written once in the run, whose whole content is the template
    with the derived title in the place of its single placeholder,
    encoded in UTF-8 after the text-mode newline translation; on POSIX
    the bytes are the characters of that text. *)
Theorem every_page_file_written (os : os_name) (env : oracle) (w : World) (page : string) :
  fst (run os env w) = Completed ->
  page ∈ pages ->
  length pages = 16 /\
  placeholder_content
    = Spec.before_placeholder +:+ Spec.placeholder +:+ Spec.after_placeholder /\
  Spec.count_char "{" placeholder_content = 1 /\
  render os page = Ok (Spec.substitute (title os page)) /\
  PyStr.contains "/" page = false /\
  PyStr.contains "\" page = false /\
  length (filter (fun n => n = page)
                 (written_names (new_events w (snd (run os env w))))) = 1 /\
  exists bs,
    files (snd (run os env w)) !! page = Some bs /\
    TextIO.encode_utf8
      (TextIO.translate_newlines os (Spec.substitute (title os page))) = Some bs /\
    (os = Posix -> bs = list_byte_of_string (Spec.substitute (title os page))).
Proof.
  intros Hc Hin.
  split; [reflexivity|]. split; [reflexivity|]. split; [reflexivity|].
  split; [apply render_ok|].
  split; [each_page Hin; reflexivity|].
  split; [each_page Hin; reflexivity|].
  split.
  { rewrite run_completed_events by assumption.
    unfold written_names. rewrite flat_map_app. fold (written_names (flat_map (page_events os) pages)).
    rewrite written_names_pages.
    replace (flat_map _ (map EvPrint next_steps)) with (@nil string) by reflexivity.
    rewrite app_nil_r.
    each_page Hin; vm_compute; reflexivity. }
  exists (page_bytes os page).
  split; [now apply run_completed_lookup|].
  split; [apply page_bytes_eq|].
  intros ->. each_page Hin; vm_compute; reflexivity.
Qed.

Lemma every_page_file_written_witness :
  fst (run Posix all_ok busy_world) = Completed /\
  "Guide-WSL.md" ∈ pages /\
  exists bs,
    files (snd (run Posix all_ok busy_world)) !! "Guide-WSL.md" = Some bs /\
    bs = list_byte_of_string (Spec.substitute "Guide WSL").
Proof.
  assert (Hc : fst (run Posix all_ok busy_world) = Completed) by (vm_compute; reflexivity).
  assert (Hin : "Guide-WSL.md" ∈ pages) by (vm_compute; repeat constructor).
  split; [exact Hc|]. split; [exact Hin|].
  destruct (every_page_file_written Posix all_ok busy_world "Guide-WSL.md" Hc Hin)
    as (_ & _ & _ & _ & _ & _ & _ & bs & Hfile & _ & Hbytes).
  exists bs. split; [exact Hfile|]. now apply Hbytes.
Defined.

(** A file written in the run is one of the pages that went through. *)
Lemma written_in_run (os : os_name) (env : oracle) (w : World) (page : string) :
  page ∈ written_names (new_events w (snd (run os env w))) ->
  page ∈ pages /\
  files (snd (run os env w)) !! page = Some (page_bytes os page).
Proof.
  destruct (run_summary os env w)
    as (done & rest & Hsplit & _ & _ & Htrace & _ & Hfiles & _).
  rewrite (new_events_app _ _ _ Htrace).
  unfold written_names. rewrite flat_map_app.
  fold (written_names (flat_map (page_events os) done)).
  rewrite written_names_pages.
  replace (flat_map _ (match rest with [] => _ | _ => _ end)) with (@nil string)
    by (destruct rest; reflexivity).
  rewrite app_nil_r. intros Hin. split.
  - rewrite Hsplit. apply elem_of_app. now left.
  - now apply Hfiles.
Qed.

(** C3. Every file a run generates, whatever its page and whether or not
    the run goes on to complete, holds the page's heading followed by one
    and the same navigation block: the line "## Navigation" and four
    links, labelled with the titles of the pages Home, Project-Structure,
    Development-Setup and Tools-Overview and targeting those page names
    without their extension. *)
Theorem navigation_block_in_every_file (os : os_name) (env : oracle) (w : World) (page : string) :
  page ∈ written_names (new_events w (snd (run os env w))) ->
  Spec.navigation_block
    = Spec.unlines [ "## Navigation";
                     "- [Home](Home)";
                     "- [Project Structure](Project-Structure)";
                     "- [Development Setup](Development-Setup)";
                     "- [Tools Overview](Tools-Overview)" ] /\
  Forall (fun p => p ∈ pages) Spec.nav_pages /\
  map (title os) Spec.nav_pages
    = [ "Home"; "Project Structure"; "Development Setup"; "Tools Overview" ] /\
  map (fun p => fst (OsPath.splitext os p)) Spec.nav_pages
    = [ "Home"; "Project-Structure"; "Development-Setup"; "Tools-Overview" ] /\
  exists head,
    head = "# " +:+ title os page +:+ Spec.unlines [ ""; ""; Spec.notice; "" ] /\
    render os page = Ok (head +:+ Spec.navigation_block) /\
    is_Some (files (snd (run os env w)) !! page) /\
    files (snd (run os env w)) !! page
      = TextIO.file_bytes os (head +:+ Spec.navigation_block).
Proof.
  intros Hw. destruct (written_in_run os env w page Hw) as [Hin Hfile].
  split; [reflexivity|].
  split; [unfold Spec.nav_pages; repeat constructor|].
  split; [destruct os; reflexivity|].
  split; [destruct os; reflexivity|].
  exists ("# " +:+ title os page +:+ Spec.unlines [ ""; ""; Spec.notice; "" ]).
  assert (Htext : ("# " +:+ title os page +:+ Spec.unlines [ ""; ""; Spec.notice; "" ])
                    +:+ Spec.navigation_block
                  = Spec.substitute (title os page)).
  { unfold Spec.substitute, Spec.before_placeholder, Spec.after_placeholder.
    now rewrite !append_assoc. }
  split; [reflexivity|]. rewrite Htext.
  split; [apply render_ok|].
  split; [rewrite Hfile; eauto|].
  rewrite Hfile. symmetry. apply page_bytes_eq.
Qed.

Lemma navigation_block_in_every_file_witness :
  "Guide-Docker.md"
    ∈ written_names (new_events fresh_world (snd (run Nt all_ok fresh_world))) /\
  "Home.md"
    ∈ written_names (new_events busy_world (snd (run Posix fails_at_tools busy_world))) /\
  exists head1 head2,
    files (snd (run Nt all_ok fresh_world)) !! "Guide-Docker.md"
      = TextIO.file_bytes Nt (head1 +:+ Spec.navigation_block) /\
    files (snd (run Posix fails_at_tools busy_world)) !! "Home.md"
      = TextIO.file_bytes Posix (head2 +:+ Spec.navigation_block).
Proof.
  assert (H1 : "Guide-Docker.md"
    ∈ written_names (new_events fresh_world (snd (run Nt all_ok fresh_world))))
    by (vm_compute; repeat constructor).
  assert (H2 : "Home.md"
    ∈ written_names (new_events busy_world (snd (run Posix fails_at_tools busy_world))))
    by (vm_compute; repeat constructor).
  split; [exact H1|]. split; [exact H2|].
  destruct (navigation_block_in_every_file Nt all_ok fresh_world _ H1)
    as (_ & _ & _ & _ & head1 & _ & _ & _ & Hf1).
  destruct (navigation_block_in_every_file Posix fails_at_tools busy_world _ H2)
    as (_ & _ & _ & _ & head2 & _ & _ & _ & Hf2).
  exists head1, head2. split; assumption.
Defined.

(** C4. After a run that completes, the file Home.md holds exactly the
    lines "# Home", a blank line, the placeholder notice, a blank line,
    "## Navigation" and the four links labelled Home, Project Structure,
    Development Setup and Tools Overview; without the blank lines: the
    heading, the notice, the navigation heading and the four links. *)
Theorem home_page_contents (os : os_name) (env : oracle) (w : World) :
  fst (run os env w) = Completed ->
  render os "Home.md" = Ok (Spec.unlines Spec.home_lines) /\
  PyStr.split "010" (Spec.unlines Spec.home_lines) = Spec.home_lines ++ [""] /\
  head Spec.home_lines = Some "# Home" /\
  Spec.non_blank Spec.home_lines
    = [ "# Home"; Spec.notice; "## Navigation";
        Spec.link "Home" "Home";
        Spec.link "Project Structure" "Project-Structure";
        Spec.link "Development Setup" "Development-Setup";
        Spec.link "Tools Overview" "Tools-Overview" ] /\
  is_Some (files (snd (run os env w)) !! "Home.md") /\
  files (snd (run os env w)) !! "Home.md"
    = TextIO.file_bytes os (Spec.unlines Spec.home_lines).
Proof.
  intros Hc.
  assert (Hin : "Home.md" ∈ pages) by (unfold pages; repeat constructor).
  assert (Htext : Spec.substitute (title os "Home.md") = Spec.unlines Spec.home_lines)
    by (destruct os; reflexivity).
  split; [rewrite render_ok; now rewrite Htext|].
  split; [reflexivity|]. split; [reflexivity|]. split; [reflexivity|].
  rewrite (run_completed_lookup os env w "Home.md" Hc Hin), <- Htext.
  split; [eauto|]. symmetry. apply page_bytes_eq.
Qed.

Lemma home_page_contents_witness :
  fst (run Posix all_ok busy_world) = Completed /\
  files (snd (run Posix all_ok busy_world)) !! "Home.md"
    = Some (list_byte_of_string (Spec.unlines Spec.home_lines)).
Proof.
  assert (Hc : fst (run Posix all_ok busy_world) = Completed) by (vm_compute; reflexivity).
  split; [exact Hc|].
  destruct (home_page_contents Posix all_ok busy_world Hc) as (_ & _ & _ & _ & _ & ->).
  vm_compute. reflexivity.
Defined.

(** C5. When the script is run twice in succession and both runs
    complete, the second run leaves the working directory exactly as the
    first one left it: every page's file is there with the same bytes. *)
Theorem second_run_changes_nothing (os : os_name) (env1 env2 : oracle) (w w2 : World) :
  run_twice os env1 env2 w = (Completed, Completed, w2) ->
  files w2 = files (snd (run os env1 w)) /\
  forall page, page ∈ pages ->
    is_Some (files w2 !! page) /\
    files w2 !! page = files (snd (run os env1 w)) !! page.
Proof.
  unfold run_twice. intros Htwice.
  destruct (run os env1 w) as [o1 w1] eqn:R1.
  destruct (run os env2 w1) as [o2 w2'] eqn:R2.
  injection Htwice as -> -> ->.
  assert (Hc1 : fst (run os env1 w) = Completed) by now rewrite R1.
  assert (Hc2 : fst (run os env2 w1) = Completed) by now rewrite R2.
  assert (Hhas : forall p, p ∈ pages -> files w1 !! p = Some (page_bytes os p)).
  { intros p Hp. pose proof (run_completed_lookup os env1 w p Hc1 Hp) as Hl.
    now rewrite R1 in Hl. }
  assert (Hsame : files w2 = files w1).
  { destruct (run_completed os env2 w1 Hc2) as [_ Hw2]. rewrite R2 in Hw2.
    cbn [snd] in Hw2. rewrite Hw2, printed_files. now apply pages_done_again. }
  cbn [snd]. split; [exact Hsame|].
  intros page Hp. rewrite Hsame, (Hhas page Hp). eauto.
Qed.

Lemma second_run_changes_nothing_witness :
  run_twice Nt all_ok all_ok busy_world
    = (Completed, Completed, snd (run Nt all_ok (snd (run Nt all_ok busy_world)))) /\
  files (snd (run Nt all_ok (snd (run Nt all_ok busy_world))))
    = files (snd (run Nt all_ok busy_world)).
Proof.
  assert (H : run_twice Nt all_ok all_ok busy_world
    = (Completed, Completed, snd (run Nt all_ok (snd (run Nt all_ok busy_world)))))
    by (vm_compute; reflexivity).
  split; [exact H|].
  exact (proj1 (second_run_changes_nothing Nt all_ok all_ok busy_world _ H)).
Defined.

(** ** Output and failures *)

Lemma no_exec_pages (os : os_name) (ps : list string) :
  existsb is_exec (flat_map (page_events os) ps) = false.
Proof. induction ps as [|p ps IH]; [reflexivity | exact IH]. Qed.

Lemma no_exec_prints (ls : list string) :
  existsb is_exec (map EvPrint ls) = false.
Proof. induction ls as [|l ls IH]; [reflexivity | exact IH]. Qed.

Lemma printed_texts_prints (ls : list string) :
  printed_texts (map EvPrint ls) = ls.
Proof. induction ls as [|l ls IH]; simpl; [reflexivity | now rewrite IH]. Qed.

Lemma next_steps_not_created (l : string) :
  l ∈ next_steps -> PyStr.startswith "Created " l = false.
Proof.
  intros Hin. unfold next_steps in Hin.
  repeat (apply elem_of_cons in Hin as [-> | Hin]); try reflexivity.
  by apply elem_of_nil in Hin.
Qed.

Lemma created_startswith (p : string) : PyStr.startswith "Created " ("Created " +:+ p) = true.
Proof. reflexivity. Qed.

(** C6. When the system refuses the file of some page, the exception is
    not caught: the run ends with an [OSError] for the first refused
    page and a non-zero exit status; standard output has gained exactly
    the "Created" lines of the pages before it, whose files are written;
    no "Created" line is printed for the refused page or a later one,
    and none of the final instructions is printed. *)
Theorem failed_write_stops_the_run (os : os_name) (env : oracle) (w : World) :
  Exists (fun p => env p <> IoOk) pages ->
  exists done q rest,
    pages = done ++ q :: rest /\
    Forall (accepts env) done /\
    env q <> IoOk /\
    fst (run os env w) = Uncaught (OSError q) /\
    exit_status (fst (run os env w)) <> 0%Z /\
    stdout (snd (run os env w)) = stdout w +:+ Spec.created_lines done /\
    printed_texts (new_events w (snd (run os env w)))
      = map (String.append "Created ") done /\
    written_names (new_events w (snd (run os env w))) = done /\
    (forall p, p ∈ done ->
       is_Some (files (snd (run os env w)) !! p) /\
       files (snd (run os env w)) !! p
         = TextIO.file_bytes os (Spec.substitute (title os p))) /\
    (forall p, p ∈ q :: rest ->
       "Created " +:+ p ∉ printed_texts (new_events w (snd (run os env w)))) /\
    (forall l, l ∈ next_steps ->
       l ∉ printed_texts (new_events w (snd (run os env w)))).
Proof.
  intros Hbad.
  destruct (run_summary os env w)
    as (done & rest & Hsplit & Hall & Hout & Htrace & Hstdout & Hfiles & _).
  destruct rest as [|q rest].
  { exfalso. rewrite app_nil_r in Hsplit. subst done.
    apply Exists_exists in Hbad as (p & Hp & Hne).
    rewrite Forall_forall in Hall. exact (Hne (Hall p Hp)). }
  destruct Hout as [Hq Ho].
  rewrite app_nil_r in Htrace. rewrite append_empty_r in Hstdout.
  pose proof (new_events_app _ _ _ Htrace) as Hnew.
  assert (Hprinted : printed_texts (new_events w (snd (run os env w)))
                     = map (String.append "Created ") done)
    by (rewrite Hnew; apply printed_texts_pages).
  exists done, q, rest.
  split; [exact Hsplit|]. split; [exact Hall|]. split; [exact Hq|].
  split; [exact Ho|]. split; [rewrite Ho; discriminate|].
  split; [exact Hstdout|]. split; [exact Hprinted|].
  split; [rewrite Hnew; apply written_names_pages|].
  split.
  { intros p Hp. rewrite (Hfiles p Hp), page_bytes_eq. eauto. }
  split.
  - intros p Hp Hin. rewrite Hprinted in Hin.
    apply list_elem_of_fmap in Hin as (p' & Heq & Hp').
    apply (inj (String.append "Created ")) in Heq. subst p'.
    pose proof pages_NoDup as Hnd. rewrite Hsplit in Hnd.
    apply NoDup_app in Hnd as (_ & Hdisj & _).
    exact (Hdisj p Hp' Hp).
  - intros l Hl Hin. rewrite Hprinted in Hin.
    apply list_elem_of_fmap in Hin as (p' & -> & _).
    apply next_steps_not_created in Hl.
    rewrite created_startswith in Hl. discriminate.
Qed.

Lemma failed_write_stops_the_run_witness :
  Exists (fun p => disk_full_at_conda p <> IoOk) pages /\
  exists done q rest,
    pages = done ++ q :: rest /\
    fst (run Posix disk_full_at_conda busy_world) = Uncaught (OSError q) /\
    stdout (snd (run Posix disk_full_at_conda busy_world))
      = stdout busy_world +:+ Spec.created_lines done.
Proof.
  assert (H : Exists (fun p => disk_full_at_conda p <> IoOk) pages).
  { apply Exists_exists. exists "Guide-Conda.md".
    split; [vm_compute; repeat constructor | vm_compute; discriminate]. }
  split; [exact H|].
  destruct (failed_write_stops_the_run Posix disk_full_at_conda busy_world H)
    as (done & q & rest & Hsplit & _ & _ & Ho & _ & Hstdout & _).
  exists done, q, rest. repeat split; assumption.
Defined.

(** C7. A run that completes prints one line "Created <page>" per page,
    in the order of the list of sixteen pages and each right after the
    page's file is written, and only then the block of follow-up
    instructions; it starts no process, and touches no file but those of
    the pages. *)
Theorem output_in_page_order (os : os_name) (env : oracle) (w : World) :
  fst (run os env w) = Completed ->
  length pages = 16 /\
  stdout (snd (run os env w))
    = stdout w +:+ Spec.created_lines pages +:+ Spec.unlines next_steps /\
  new_events w (snd (run os env w))
    = flat_map (fun p => [ EvFileWritten p (page_bytes os p);
                           EvPrint ("Created " +:+ p) ]) pages
      ++ map EvPrint next_steps /\
  printed_texts (new_events w (snd (run os env w)))
    = map (String.append "Created ") pages ++ next_steps /\
  existsb is_exec (new_events w (snd (run os env w))) = false /\
  (forall name, name ∉ pages ->
     files (snd (run os env w)) !! name = files w !! name).
Proof.
  intros Hc.
  pose proof (run_completed_events os env w Hc) as Hnew.
  destruct (run_completed os env w Hc) as [_ Hw'].
  split; [reflexivity|].
  split; [now rewrite Hw', printed_stdout, pages_done_stdout, append_assoc|].
  split; [exact Hnew|].
  split.
  { rewrite Hnew. unfold printed_texts. rewrite flat_map_app.
    fold (printed_texts (flat_map (page_events os) pages)).
    fold (printed_texts (map EvPrint next_steps)).
    now rewrite printed_texts_pages, printed_texts_prints. }
  split; [now rewrite Hnew, existsb_app, no_exec_pages, no_exec_prints|].
  intros name Hout. rewrite Hw', printed_files. now apply pages_done_lookup_out.
Qed.

Lemma output_in_page_order_witness :
  fst (run Nt all_ok busy_world) = Completed /\
  printed_texts (new_events busy_world (snd (run Nt all_ok busy_world)))
    = map (String.append "Created ") pages ++ next_steps /\
  files (snd (run Nt all_ok busy_world)) !! "notes.txt" = Some [x68; x69].
Proof.
  assert (Hc : fst (run Nt all_ok busy_world) = Completed) by (vm_compute; reflexivity).
  split; [exact Hc|].
  destruct (output_in_page_order Nt all_ok busy_world Hc)
    as (_ & _ & _ & Hprinted & _ & Hframe).
  split; [exact Hprinted|].
  rewrite Hframe; [vm_compute; reflexivity|].
  vm_compute. intros Hin. 
  repeat (apply elem_of_cons in Hin as [Hin | Hin]; [discriminate|]).
  by apply elem_of_nil in Hin.
Defined.

(** ** Determinism *)

(** A list splits in one way only into an accepted prefix and a rest
    that is empty or starts with a refused element. *)
Lemma accepted_prefix_unique {A : Type} (P : A -> Prop) (d1 d2 r1 r2 : list A) :
  d1 ++ r1 = d2 ++ r2 ->
  Forall P d1 -> Forall P d2 ->
  match r1 with [] => True | q :: _ => ~ P q end ->
  match r2 with [] => True | q :: _ => ~ P q end ->
  d1 = d2 /\ r1 = r2.
Proof.
  revert d2. induction d1 as [|x d1 IH]; intros [|y d2] Heq H1 H2 Hr1 Hr2.
  - now split.
  - simpl in Heq. subst r1. inversion H2; subst. contradiction.
  - simpl in Heq. subst r2. inversion H1; subst. contradiction.
  - simpl in Heq. injection Heq as -> Heq.
    inversion H1; subst. inversion H2; subst.
    destruct (IH d2 Heq) as [-> ->]; try assumption. now split.
Qed.

Lemma run_did_unique (os : os_name) (env1 env2 : oracle) (w1 w2 : World)
      (d1 r1 d2 r2 : list string) :
  (forall p, p ∈ pages -> env1 p = env2 p) ->
  run_did os env1 w1 d1 r1 ->
  run_did os env2 w2 d2 r2 ->
  d1 = d2 /\ r1 = r2.
Proof.
  intros Hagree (Hs1 & Ha1 & Ho1 & _) (Hs2 & Ha2 & Ho2 & _).
  apply (accepted_prefix_unique (accepts env1)).
  - congruence.
  - exact Ha1.
  - rewrite Forall_forall in *. intros p Hp. unfold accepts.
    rewrite Hagree; [now apply Ha2|].
    rewrite Hs2. apply elem_of_app. now left.
  - destruct r1; [exact I | tauto].
  - destruct r2 as [|q r2]; [exact I|]. unfold accepts.
    rewrite Hagree; [tauto|].
    rewrite Hs2. apply elem_of_app. right. apply list_elem_of_here.
Qed.

(** C8. The script consults neither its arguments nor its environment
    nor the files already present: two runs on the same platform, in
    worlds that may differ in all of these, for which the system answers
    the writes of the pages alike, end alike, print the same text and
    perform the same effects, leave arguments and environment as they
    were, and, when they complete, leave the same content in every
    page's file. *)
Theorem runs_agree (os : os_name) (env1 env2 : oracle) (w1 w2 : World) :
  (forall p, p ∈ pages -> env1 p = env2 p) ->
  fst (run os env1 w1) = fst (run os env2 w2) /\
  new_output w1 (snd (run os env1 w1)) = new_output w2 (snd (run os env2 w2)) /\
  new_events w1 (snd (run os env1 w1)) = new_events w2 (snd (run os env2 w2)) /\
  argv (snd (run os env1 w1)) = argv w1 /\
  environ (snd (run os env1 w1)) = environ w1 /\
  (fst (run os env1 w1) = Completed ->
   forall page, page ∈ pages ->
     is_Some (files (snd (run os env1 w1)) !! page) /\
     files (snd (run os env1 w1)) !! page = files (snd (run os env2 w2)) !! page).
Proof.
  intros Hagree.
  destruct (run_summary os env1 w1) as (d1 & r1 & Hdid1).
  destruct (run_summary os env2 w2) as (d2 & r2 & Hdid2).
  destruct (run_did_unique os env1 env2 w1 w2 d1 r1 d2 r2 Hagree Hdid1 Hdid2) as [-> ->].
  pose proof Hdid1 as (Hs1 & _ & Ho1 & Ht1 & Hout1 & Hf1 & _ & Hargv1 & Henv1).
  pose proof Hdid2 as (_ & _ & Ho2 & Ht2 & Hout2 & Hf2 & _).
  split.
  { destruct r2 as [|q r2]; [congruence|].
    destruct Ho1 as [_ ->]. destruct Ho2 as [_ ->]. reflexivity. }
  split; [now rewrite (new_output_app _ _ _ Hout1), (new_output_app _ _ _ Hout2)|].
  split; [now rewrite (new_events_app _ _ _ Ht1), (new_events_app _ _ _ Ht2)|].
  split; [exact Hargv1|]. split; [exact Henv1|].
  intros Hc page Hp.
  destruct (run_did_completed os env1 w1 d2 r2 Hdid1 Hc) as [-> _].
  rewrite (Hf1 page Hp), (Hf2 page Hp). eauto.
Qed.

Lemma runs_agree_witness :
  (forall p, p ∈ pages -> all_ok p = notes_protected p) /\
  new_output fresh_world (snd (run Posix all_ok fresh_world))
    = new_output busy_world (snd (run Posix notes_protected busy_world)) /\
  files (snd (run Posix all_ok fresh_world)) !! "Home.md"
    = files (snd (run Posix notes_protected busy_world)) !! "Home.md".
Proof.
  assert (H : forall p, p ∈ pages -> all_ok p = notes_protected p)
    by (intros p Hp; each_page Hp; reflexivity).
  split; [exact H|].
  destruct (runs_agree Posix all_ok notes_protected fresh_world busy_world H)
    as (_ & Hout & _ & _ & _ & Hfiles).
  split; [exact Hout|].
  apply Hfiles; [vm_compute; reflexivity | vm_compute; repeat constructor].
Defined.

(** ** The list of pages *)

(** C9. The sixteen page names are pairwise distinct: a run that
    completes writes each name once, in list order, the names make
    sixteen distinct files, which are what the run adds to the
    directory, and an empty directory holds exactly sixteen files
    afterwards. *)
Theorem pages_are_distinct_files (os : os_name) (env : oracle) (w : World) :
  fst (run os env w) = Completed ->
  NoDup pages /\
  length pages = 16 /\
  written_names (new_events w (snd (run os env w))) = pages /\
  size (list_to_set pages : gset string) = 16 /\
  dom (files (snd (run os env w))) = dom (files w) ∪ list_to_set pages /\
  (files w = ∅ -> size (files (snd (run os env w))) = 16).
Proof.
  intros Hc.
  assert (Hsize : size (list_to_set pages : gset string) = 16)
    by (rewrite size_list_to_set by apply pages_NoDup; reflexivity).
  assert (Hdom : dom (files (snd (run os env w))) = dom (files w) ∪ list_to_set pages).
  { destruct (run_completed os env w Hc) as [_ ->].
    rewrite printed_files. apply pages_done_dom. }
  split; [apply pages_NoDup|]. split; [reflexivity|].
  split.
  { rewrite run_completed_events by assumption.
    unfold written_names. rewrite flat_map_app.
    fold (written_names (flat_map (page_events os) pages)).
    rewrite written_names_pages.
    replace (flat_map _ (map EvPrint next_steps)) with (@nil string) by reflexivity.
    apply app_nil_r. }
  split; [exact Hsize|]. split; [exact Hdom|].
  intros Hempty.
  rewrite <- size_dom, Hdom, Hempty, dom_empty_L, union_empty_l_L. exact Hsize.
Qed.

Lemma pages_are_distinct_files_witness :
  fst (run Posix all_ok fresh_world) = Completed /\
  written_names (new_events fresh_world (snd (run Posix all_ok fresh_world))) = pages /\
  size (files (snd (run Posix all_ok fresh_world))) = 16.
Proof.
  assert (Hc : fst (run Posix all_ok fresh_world) = Completed) by (vm_compute; reflexivity).
  split; [exact Hc|].
  destruct (pages_are_distinct_files Posix all_ok fresh_world Hc)
    as (_ & _ & Hnames & _ & _ & Hsize).
  split; [exact Hnames|]. apply Hsize. reflexivity.
Defined.

(** ** Checks of the primitives on concrete inputs *)

Example splitext_page :
  OsPath.splitext Posix "Setup-VS-Code-Miniconda.md" = ("Setup-VS-Code-Miniconda", ".md").
Proof. reflexivity. Qed.

Example splitext_leading_dot : OsPath.splitext Posix ".bashrc" = (".bashrc", "").
Proof. reflexivity. Qed.

Example splitext_dot_in_directory :
  OsPath.splitext Posix "wiki.d/Home" = ("wiki.d/Home", "")
  /\ OsPath.splitext Nt "wiki.d\Home" = ("wiki.d\Home", "")
  /\ OsPath.splitext Posix "wiki.d\Home" = ("wiki", ".d\Home").
Proof. repeat split; reflexivity. Qed.

Example splitext_last_dot_only :
  OsPath.splitext Nt "archive.tar.gz" = ("archive.tar", ".gz").
Proof. reflexivity. Qed.

Example replace_hyphens : PyStr.replace "-" " " "Guide-VS-Code" = "Guide VS Code".
Proof. reflexivity. Qed.

Example replace_substring : PyStr.replace "ab" "x" "ababa-ab" = "xxa-x".
Proof. reflexivity. Qed.

Example replace_empty_old : PyStr.replace "" "x" "abc" = "xaxbxcx".
Proof. reflexivity. Qed.

Example format_escapes :
  PyFormat.format "{{{title}}}" [("title", "Home")] = Ok "{Home}".
Proof. reflexivity. Qed.

Example format_title_not_rescanned :
  PyFormat.format "# {title}" [("title", "{title}")] = Ok "# {title}".
Proof. reflexivity. Qed.

Example format_errors :
  PyFormat.format "# {name}" [("title", "Home")] = Raise (KeyError "name")
  /\ PyFormat.format "# {" [("title", "Home")] = Raise ValueError
  /\ PyFormat.format "# }" [("title", "Home")] = Raise ValueError
  /\ PyFormat.format "# {}" [("title", "Home")] = Raise IndexError.
Proof. repeat split; reflexivity. Qed.

Example utf8_code_points :
  TextIO.utf8_encode_cp 0x41 = Some [x41]
  /\ TextIO.utf8_encode_cp 0xE9 = Some [xc3; xa9]
  /\ TextIO.utf8_encode_cp 0x20AC = Some [xe2; x82; xac]
  /\ TextIO.utf8_encode_cp 0x1F600 = Some [xf0; x9f; x98; x80]
  /\ TextIO.utf8_encode_cp 0xD800 = None
  /\ TextIO.utf8_encode_cp 0x110000 = None.
Proof. repeat split; reflexivity. Qed.

Example newline_translation :
  TextIO.file_bytes Posix (Spec.unlines ["a"; "b"]) = Some [x61; x0a; x62; x0a]
  /\ TextIO.file_bytes Nt (Spec.unlines ["a"; "b"]) = Some [x61; x0d; x0a; x62; x0d; x0a].
Proof. split; reflexivity. Qed.

Example read_only_directory :
  run Posix read_only busy_world = (Uncaught (OSError "Home.md"), busy_world).
Proof. vm_compute. reflexivity. Qed.

Example disk_full :
  fst (run Posix disk_full_at_conda fresh_world) = Uncaught (OSError "Guide-Conda.md")
  /\ files (snd (run Posix disk_full_at_conda fresh_world)) !! "Guide-Conda.md"
     = Some (list_byte_of_string "# Guide")
  /\ files (snd (run Posix disk_full_at_conda fresh_world)) !! "Guide-Ollama.md" = None
  /\ new_output fresh_world (snd (run Posix disk_full_at_conda fresh_world))
     = Spec.created_lines (take 7 pages).
Proof. vm_compute. repeat split; reflexivity. Qed.

Example stops_before_tools_overview :
  fst (run Nt fails_at_tools fresh_world) = Uncaught (OSError "Tools-Overview.md")
  /\ written_names (trace (snd (run Nt fails_at_tools fresh_world))) = take 5 pages
  /\ exit_status (fst (run Nt fails_at_tools fresh_world)) = 1%Z.
Proof. vm_compute. repeat split; reflexivity. Qed.

(** * Further properties of the script *)

(** ** How a run can end *)

(** X1. A run completes exactly when the system accepts the file of
    every page; otherwise it ends with an [OSError] naming a refused
    page.  No other exception can end a run: rendering raises neither
    [KeyError] nor [ValueError], encoding no [UnicodeEncodeError]. *)
Theorem run_outcome (os : os_name) (env : oracle) (w : World) :
  (fst (run os env w) = Completed <-> Forall (accepts env) pages) /\
  (fst (run os env w) = Completed \/
   exists q, q ∈ pages /\ env q <> IoOk /\
             fst (run os env w) = Uncaught (OSError q)).
Proof.
  destruct (run_cases os env w)
    as [[Hall Hrun] | (done & q & rest & Hsplit & Hall & Hq & Hrun)];
    rewrite Hrun; cbn [fst].
  - split; [tauto | now left].
  - assert (Hin : q ∈ pages).
    { rewrite Hsplit. apply elem_of_app. right. apply list_elem_of_here. }
    split.
    + split; [discriminate|]. intros Hacc.
      rewrite Forall_forall in Hacc. destruct (Hq (Hacc q Hin)).
    + right. exists q. now repeat split.
Qed.

(** X2. Whatever its outcome, a run leaves every file that is not named
    after a page as it was, leaves the arguments and the environment as
    they were, only appends to standard output and to the effects so
    far, and starts no process. *)
Theorem run_frame (os : os_name) (env : oracle) (w : World) :
  (forall name, name ∉ pages ->
     files (snd (run os env w)) !! name = files w !! name) /\
  argv (snd (run os env w)) = argv w /\
  environ (snd (run os env w)) = environ w /\
  stdout (snd (run os env w)) = stdout w +:+ new_output w (snd (run os env w)) /\
  trace (snd (run os env w)) = trace w ++ new_events w (snd (run os env w)) /\
  existsb is_exec (new_events w (snd (run os env w))) = false.
Proof.
  destruct (run_summary os env w)
    as (done & rest & _ & _ & _ & Htrace & Hstdout & _ & Hframe & Hargv & Henv).
  split; [exact Hframe|]. split; [exact Hargv|]. split; [exact Henv|].
  split; [now rewrite (new_output_app _ _ _ Hstdout)|].
  rewrite (new_events_app _ _ _ Htrace).
  split; [exact Htrace|].
  rewrite existsb_app, no_exec_pages.
  destruct rest; [apply no_exec_prints | reflexivity].
Qed.

(** ** Failed writes and recovery *)

(** X3. When the run stops at page [q], the files of the pages before
    [q] hold their new content and the files of the pages after [q] are
    as they were.  The file of [q] itself is as it was when [open]
    failed; when the write failed after [n] bytes the old content is
    gone and the file holds the first [n] bytes of the new one. *)
Theorem failed_run_files (os : os_name) (env : oracle) (w : World)
        (done rest : list string) (q : string) :
  pages = done ++ q :: rest ->
  Forall (accepts env) done ->
  env q <> IoOk ->
  (forall p, p ∈ done ->
     files (snd (run os env w)) !! p
       = TextIO.file_bytes os (Spec.substitute (title os p))) /\
  (forall p, p ∈ rest -> files (snd (run os env w)) !! p = files w !! p) /\
  exists bs,
    TextIO.file_bytes os (Spec.substitute (title os q)) = Some bs /\
    files (snd (run os env w)) !! q
      = match env q with
        | WriteFails n => Some (take n bs)
        | IoOk | OpenFails => files w !! q
        end.
Proof.
  intros Hsplit Hall Hq.
  pose proof pages_NoDup as Hnd. rewrite Hsplit in Hnd.
  apply NoDup_app in Hnd as (_ & Hdisj & Hnd).
  apply NoDup_cons in Hnd as [Hq_rest _].
  assert (Hq_done : q ∉ done)
    by (intros Hin; apply (Hdisj q Hin); apply list_elem_of_here).
  destruct (run_cases os env w)
    as [[Hacc _] | (done' & q' & rest' & Hsplit' & Hall' & Hq' & Hrun)].
  { exfalso. rewrite Forall_forall in Hacc. apply Hq, Hacc.
    rewrite Hsplit. apply elem_of_app. right. apply list_elem_of_here. }
  destruct (accepted_prefix_unique (accepts env) done done' (q :: rest) (q' :: rest'))
    as [<- Heq]; try assumption; [congruence|].
  injection Heq as <- <-.
  rewrite Hrun. cbn [snd].
  assert (Hother : forall n, n <> q ->
            files (page_failed os env (pages_done os done w) q) !! n
            = files (pages_done os done w) !! n).
  { intros n Hn. unfold page_failed. destruct (env q); try reflexivity.
    cbn [files]. apply lookup_insert_ne. congruence. }
  split.
  { intros p Hp. rewrite Hother by (intros ->; contradiction).
    rewrite pages_done_lookup_in by assumption. symmetry. apply page_bytes_eq. }
  split.
  { intros p Hp. rewrite Hother by (intros ->; contradiction).
    apply pages_done_lookup_out. intros Hin.
    apply (Hdisj p Hin). now apply list_elem_of_further. }
  exists (page_bytes os q). split; [apply page_bytes_eq|].
  unfold page_failed. destruct (env q) as [| |n] eqn:E.
  - congruence.
  - now apply pages_done_lookup_out.
  - cbn [files]. apply lookup_insert_eq.
Qed.

Lemma failed_run_files_witness :
  pages = take 7 pages ++ "Guide-Conda.md" :: drop 8 pages /\
  Forall (accepts disk_full_at_conda) (take 7 pages) /\
  disk_full_at_conda "Guide-Conda.md" <> IoOk /\
  files (snd (run Posix disk_full_at_conda busy_world)) !! "Home.md"
    = TextIO.file_bytes Posix (Spec.substitute "Home") /\
  files (snd (run Posix disk_full_at_conda busy_world)) !! "Guide-WSL.md" = None.
Proof.
  assert (H1 : pages = take 7 pages ++ "Guide-Conda.md" :: drop 8 pages) by reflexivity.
  assert (H2 : Forall (accepts disk_full_at_conda) (take 7 pages))
    by (vm_compute; repeat constructor).
  assert (H3 : disk_full_at_conda "Guide-Conda.md" <> IoOk) by (vm_compute; discriminate).
  split; [exact H1|]. split; [exact H2|]. split; [exact H3|].
  destruct (failed_run_files Posix disk_full_at_conda busy_world _ _ _ H1 H2 H3)
    as (Hdone & Hrest & _).
  split.
  - apply (Hdone "Home.md"). vm_compute. repeat constructor.
  - rewrite (Hrest "Guide-WSL.md"); [vm_compute; reflexivity|].
    vm_compute. repeat constructor.
Defined.

(** X4. A run that completes repairs whatever an earlier run, complete
    or not, left behind: the directory is the one a single completing
    run would have produced from the original directory. *)
Theorem rerun_repairs (os : os_name) (env1 env2 : oracle) (w : World) :
  fst (run os env2 (snd (run os env1 w))) = Completed ->
  fst (run os env2 w) = Completed /\
  files (snd (run os env2 (snd (run os env1 w)))) = files (snd (run os env2 w)).
Proof.
  intros Hc.
  assert (Hall : Forall (accepts env2) pages).
  { destruct (run_cases os env2 (snd (run os env1 w)))
      as [[Hall _] | (d & q & r & _ & _ & _ & Hrun)]; [exact Hall|].
    rewrite Hrun in Hc. discriminate. }
  assert (Hc' : fst (run os env2 w) = Completed).
  { destruct (run_cases os env2 w)
      as [[_ Hrun] | (d & q & r & Hsplit & _ & Hq & _)]; [now rewrite Hrun|].
    exfalso. rewrite Forall_forall in Hall. apply Hq, Hall.
    rewrite Hsplit. apply elem_of_app. right. apply list_elem_of_here. }
  split; [exact Hc'|].
  apply map_eq. intros name.
  destruct (decide (name ∈ pages)) as [Hin|Hout].
  - now rewrite !run_completed_lookup.
  - destruct (run_summary os env2 (snd (run os env1 w)))
      as (? & ? & _ & _ & _ & _ & _ & _ & Hf2 & _).
    destruct (run_summary os env1 w) as (? & ? & _ & _ & _ & _ & _ & _ & Hf1 & _).
    destruct (run_summary os env2 w) as (? & ? & _ & _ & _ & _ & _ & _ & Hf & _).
    now rewrite Hf2, Hf1, Hf.
Qed.

Lemma rerun_repairs_witness :
  fst (run Nt all_ok (snd (run Nt disk_full_at_conda busy_world))) = Completed /\
  files (snd (run Nt all_ok (snd (run Nt disk_full_at_conda busy_world))))
    = files (snd (run Nt all_ok busy_world)).
Proof.
  assert (Hc : fst (run Nt all_ok (snd (run Nt disk_full_at_conda busy_world))) = Completed)
    by (vm_compute; reflexivity).
  split; [exact Hc|].
  exact (proj2 (rerun_repairs Nt disk_full_at_conda all_ok busy_world Hc)).
Defined.

(** ** The loop body on any name *)


(** ** Titles of arbitrary names *)

Lemma hyphens_to_spaces_length (s : string) :
  String.length (Spec.hyphens_to_spaces s) = String.length s.
Proof. induction s as [|c s IH]; simpl; [reflexivity | now rewrite IH]. Qed.

Lemma contains_hyphen (s : string) : PyStr.contains "-" s = Spec.has_hyphen s.
Proof.
  induction s as [|c s IH]; [reflexivity|].
  cbn [PyStr.contains PyStr.startswith Spec.has_hyphen].
  rewrite IH, Ascii.eqb_sym. now destruct (Ascii.eqb c "-").
Qed.

Lemma take_length_le (n : nat) (s : string) :
  String.length (PyStr.take n s) <= String.length s.
Proof.
  revert s. induction n as [|n IH]; intros [|c s]; simpl; try lia.
  specialize (IH s). lia.
Qed.

Lemma take_drop (n : nat) (s : string) : PyStr.take n s +:+ PyStr.drop n s = s.
Proof.
  revert s. induction n as [|n IH]; intros [|c s]; simpl; try reflexivity.
  now rewrite IH.
Qed.

(** X6. For any file name the title holds no hyphen, is as long as the
    name without its extension, hence no longer than the name, and is
    left unchanged by a second replacement of hyphens. *)
Theorem title_any_name (os : os_name) (name : string) :
  PyStr.contains "-" (title os name) = false /\
  String.length (title os name) = String.length (fst (OsPath.splitext os name)) /\
  String.length (title os name) <= String.length name /\
  PyStr.replace "-" " " (title os name) = title os name.
Proof.
  unfold title. rewrite !replace_hyphen_spec, contains_hyphen, hyphens_to_spaces_length.
  split; [apply hyphens_to_spaces_clean|]. split; [reflexivity|].
  split.
  - unfold OsPath.splitext, OsPath._splitext.
    destruct (_ && _); cbn [fst]; [apply take_length_le | lia].
  - generalize (fst (OsPath.splitext os name)). intros s.
    induction s as [|c s IH]; [reflexivity|].
    cbn [Spec.hyphens_to_spaces]. rewrite IH.
    destruct (Ascii.eqb c "-") eqn:E; [reflexivity | now rewrite E].
Qed.

(** ** [os.path.splitext] *)

(** [rfind] gives the start value when the character does not occur,
    and otherwise the index of an occurrence after which there is no
    other. *)
Lemma rfind_from_spec (c : ascii) (s : string) (i last : Z) :
  (PyStr.rfind_from c i last s = last /\ Spec.count_char c s = 0)
  \/
  (exists (k : nat) (t : string),
      PyStr.rfind_from c i last s = (i + Z.of_nat k)%Z /\
      PyStr.drop k s = String c t /\
      Spec.count_char c t = 0).
Proof.
  revert i last. induction s as [|a s IH]; intros i last.
  - left. now split.
  - cbn [PyStr.rfind_from Spec.count_char].
    destruct (IH (i + 1)%Z (if Ascii.eqb a c then i else last))
      as [[Hr Hc] | (k & t & Hr & Hd & Hc)].
    + destruct (Ascii.eqb_spec a c) as [->|Hne].
      * right. exists 0, s. rewrite Hr. split; [lia|]. now split.
      * left. rewrite Hr, Hc. now split.
    + right. exists (S k), t. rewrite Hr. split; [lia|]. now split.
Qed.

Lemma rfind_lower_bound (c : ascii) (s : string) : (-1 <= PyStr.rfind c s)%Z.
Proof.
  unfold PyStr.rfind.
  destruct (rfind_from_spec c s 0 (-1)) as [[-> _] | (k & t & -> & _)]; lia.
Qed.

(** X7. [splitext] cuts a path in two without losing a character: root
    and extension put together give the path back on both platforms.
    The extension is empty, or it starts with a dot and holds no other
    dot. *)
Theorem splitext_partition (os : os_name) (p : string) :
  fst (OsPath.splitext os p) +:+ snd (OsPath.splitext os p) = p /\
  (snd (OsPath.splitext os p) = ""
   \/ exists t, snd (OsPath.splitext os p) = String "." t /\
                Spec.count_char "." t = 0).
Proof.
  unfold OsPath.splitext, OsPath._splitext.
  set (sepIndex := match OsPath.altsep os with
                   | Some a => Z.max (PyStr.rfind (OsPath.sep os) p) (PyStr.rfind a p)
                   | None => PyStr.rfind (OsPath.sep os) p
                   end).
  assert (Hsep : (-1 <= sepIndex)%Z).
  { subst sepIndex. pose proof (rfind_lower_bound (OsPath.sep os) p).
    destruct (OsPath.altsep os); lia. }
  destruct (Z.ltb_spec sepIndex (PyStr.rfind OsPath.extsep p)) as [Hlt|Hge];
    cbn [andb fst snd].
  2: { split; [apply append_empty_r | now left]. }
  destruct (OsPath.has_non_dot _ _ _ _); cbn [fst snd].
  2: { split; [apply append_empty_r | now left]. }
  split; [apply take_drop|]. right.
  unfold PyStr.rfind in *.
  destruct (rfind_from_spec OsPath.extsep p 0 (-1)) as [[Hr _] | (k & t & Hr & Hd & Hc)].
  - rewrite Hr in Hlt. lia.
  - rewrite Hr. replace (Z.to_nat (0 + Z.of_nat k)) with k by lia.
    exists t. now split.
Qed.

(** ** The page names *)

(** X8. The page names are safe on Windows, as the comment on the list
    says: none is empty, holds a character the system reserves, ends in
    a space or a dot, or is a device name; and no two of them differ
    only in the case of their letters, so sixteen files result on a
    file system that ignores case too. *)
Theorem pages_windows_safe :
  Forall (fun page => Windows.safe_name page = true) pages /\
  NoDup (map Text.lower pages).
Proof.
  split.
  - unfold pages. repeat constructor.
  - apply (bool_decide_unpack _). vm_compute. reflexivity.
Qed.

(** X11. A page's name can be read back from its title, by putting the
    hyphens back and adding the extension; so the sixteen titles are
    pairwise distinct, and no two generated files have the same
    heading. *)
Theorem title_determines_page (os : os_name) (page : string) :
  page ∈ pages ->
  PyStr.replace " " "-" (title os page) +:+ ".md" = page /\
  NoDup (map (title os) pages).
Proof.
  intros Hin. split.
  - each_page Hin; destruct os; reflexivity.
  - apply (bool_decide_unpack _). destruct os; vm_compute; reflexivity.
Qed.

Lemma title_determines_page_witness :
  "Setup-Ollama-Model.md" ∈ pages /\
  PyStr.replace " " "-" (title Nt "Setup-Ollama-Model.md") +:+ ".md"
    = "Setup-Ollama-Model.md".
Proof.
  assert (Hin : "Setup-Ollama-Model.md" ∈ pages) by (vm_compute; repeat constructor).
  split; [exact Hin|].
  exact (proj1 (title_determines_page Nt "Setup-Ollama-Model.md" Hin)).
Defined.

(** ** Text written to files *)

Lemma replace_char_step (a c : ascii) (new s : string) :
  PyStr.replace_scan (PyStr.chr a) new 0 (String c s)
  = if Ascii.eqb a c
    then new +:+ PyStr.replace_scan (PyStr.chr a) new 0 s
    else String c (PyStr.replace_scan (PyStr.chr a) new 0 s).
Proof.
  cbn [PyStr.replace_scan PyStr.chr PyStr.startswith String.length Nat.sub].
  now destruct (Ascii.eqb a c).
Qed.

Lemma append_length (a b : string) :
  String.length (a +:+ b) = String.length a + String.length b.
Proof. induction a as [|c a IH]; simpl; [reflexivity | now rewrite IH]. Qed.

Lemma translate_newlines_posix (text : string) :
  TextIO.translate_newlines Posix text = text.
Proof.
  unfold TextIO.translate_newlines, TextIO.linesep, TextIO.LF, PyStr.replace.
  cbn [PyStr.chr]. fold (PyStr.chr "010").
  induction text as [|c text IH]; [reflexivity|].
  rewrite replace_char_step, IH.
  destruct (Ascii.eqb_spec "010"%char c) as [<-|]; reflexivity.
Qed.

(** X10. Newline translation leaves a text as it is on POSIX, so the
    file receives the plain UTF-8 encoding of the text; on Windows it
    lengthens the text by one character per line feed. *)
Theorem newline_translation_effect (text : string) :
  TextIO.translate_newlines Posix text = text /\
  TextIO.file_bytes Posix text = TextIO.encode_utf8 text /\
  String.length (TextIO.translate_newlines Nt text)
    = String.length text + Spec.count_char "010" text.
Proof.
  split; [apply translate_newlines_posix|].
  split; [unfold TextIO.file_bytes; now rewrite translate_newlines_posix|].
  unfold TextIO.translate_newlines, TextIO.linesep, TextIO.CRLF, TextIO.LF, PyStr.replace.
  cbn [PyStr.chr]. fold (PyStr.chr "010").
  induction text as [|c text IH]; [reflexivity|].
  rewrite replace_char_step. cbn [Spec.count_char].
  rewrite (Ascii.eqb_sym c).
  destruct (Ascii.eqb "010" c); rewrite ?append_length;
    cbn [String.length PyStr.chr]; lia.
Qed.

(** X9. A text made of ASCII characters is encoded one byte per
    character, each byte being the character's code: the encoding given
    to [open] agrees with ASCII on such text, and on POSIX the file
    holds the characters of the text. *)
Theorem ascii_text_bytes (text : string) :
  Text.is_ascii text = true ->
  TextIO.encode_utf8 text = Some (list_byte_of_string text) /\
  TextIO.file_bytes Posix text = Some (list_byte_of_string text).
Proof.
  intros Hascii.
  assert (Henc : TextIO.encode_utf8 text = Some (list_byte_of_string text)).
  { induction text as [|c text IH]; [reflexivity|].
    cbn [Text.is_ascii] in Hascii. apply andb_prop in Hascii as [Hc Hrest].
    cbn [TextIO.encode_utf8]. rewrite (IH Hrest).
    unfold TextIO.utf8_encode_cp, TextIO.ord. rewrite Hc.
    unfold TextIO.byte_of_N. rewrite <- byte_of_ascii_via_N. reflexivity. }
  split; [exact Henc|].
  unfold TextIO.file_bytes. now rewrite translate_newlines_posix.
Qed.

Lemma ascii_text_bytes_witness :
  Text.is_ascii "# Home" = true /\
  TextIO.file_bytes Posix "# Home" = Some [x23; x20; x48; x6f; x6d; x65].
Proof.
  assert (H : Text.is_ascii "# Home" = true) by reflexivity.
  split; [exact H|].
  exact (proj2 (ascii_text_bytes "# Home" H)).
Defined.

(** ** [str.format] *)

Lemma scan_brace_free (kwargs : list (string * string)) (a rest : string) :
  Text.brace_free a = true ->
  PyFormat.scan kwargs PyFormat.Text (a +:+ rest)
  = PyFormat.emit a (PyFormat.scan kwargs PyFormat.Text rest).
Proof.
  intros Hfree. induction a as [|c a IH].
  - cbn [String.append]. unfold PyFormat.emit.
    destruct (PyFormat.scan kwargs PyFormat.Text rest); reflexivity.
  - cbn [Text.brace_free] in Hfree.
    apply andb_prop in Hfree as [Hc Hfree]. apply andb_prop in Hc as [Ho Hcl].
    apply negb_true_iff in Ho, Hcl.
    cbn [String.append PyFormat.scan]. rewrite Ho, Hcl, (IH Hfree).
    unfold PyFormat.emit.
    destruct (PyFormat.scan kwargs PyFormat.Text rest); reflexivity.
Qed.

(** X13. Formatting copies text without braces as it is, whatever the
    keyword arguments, and replaces a field [{title}] between two such
    texts by the value of [title], which is not scanned in its turn. *)
Theorem format_one_field (before after value : string) (others : list (string * string)) :
  Text.brace_free before = true ->
  Text.brace_free after = true ->
  PyFormat.format before others = Ok before /\
  PyFormat.format (before +:+ "{title}" +:+ after) (("title", value) :: others)
    = Ok (before +:+ value +:+ after).
Proof.
  intros Hb Ha.
  assert (Htext : forall kw s, Text.brace_free s = true ->
                    PyFormat.scan kw PyFormat.Text s = Ok s).
  { intros kw s Hs. rewrite <- (append_empty_r s) at 1.
    rewrite scan_brace_free by assumption.
    cbn [PyFormat.scan PyFormat.emit]. now rewrite append_empty_r. }
  unfold PyFormat.format. split; [now apply Htext|].
  rewrite scan_brace_free by assumption.
  cbn. rewrite (Htext _ after Ha). reflexivity.
Qed.

Lemma format_one_field_witness :
  Text.brace_free "# " = true /\
  Text.brace_free " (draft)" = true /\
  PyFormat.format "# {title} (draft)" [("title", "{Home}"); ("author", "wiki")]
    = Ok "# {Home} (draft)".
Proof.
  assert (H1 : Text.brace_free "# " = true) by reflexivity.
  assert (H2 : Text.brace_free " (draft)" = true) by reflexivity.
  split; [exact H1|]. split; [exact H2|].
  exact (proj2 (format_one_field "# " " (draft)" "{Home}" [("author", "wiki")] H1 H2)).
Defined.

(** ** Names of the form [stem.md] *)

Lemma rfind_from_app (c : ascii) (a b : string) (i last : Z) :
  PyStr.rfind_from c i last (a +:+ b)
  = PyStr.rfind_from c (i + Z.of_nat (String.length a)) (PyStr.rfind_from c i last a) b.
Proof.
  revert i last. induction a as [|x a IH]; intros i last.
  - cbn [String.append String.length PyStr.rfind_from]. f_equal. lia.
  - cbn [String.append String.length PyStr.rfind_from]. rewrite IH. f_equal. lia.
Qed.

Lemma rfind_from_absent (c : ascii) (s : string) (i last : Z) :
  Spec.count_char c s = 0 -> PyStr.rfind_from c i last s = last.
Proof.
  revert i last. induction s as [|a s IH]; intros i last Hc; [reflexivity|].
  cbn [Spec.count_char] in Hc. cbn [PyStr.rfind_from].
  destruct (Ascii.eqb a c); [discriminate|]. now apply IH.
Qed.

Lemma take_app_length (a b : string) : PyStr.take (String.length a) (a +:+ b) = a.
Proof. induction a as [|c a IH]; simpl; [now destruct b | now rewrite IH]. Qed.

(** X12. Any name made of a non-empty stem without dot, slash or
    backslash, followed by ".md", splits into the stem and ".md" on
    both platforms, and its title is the stem with every hyphen turned
    into a space: a page added to the list under such a name gets its
    title in the same way as the sixteen. *)
Theorem title_of_md_name (os : os_name) (stem : string) :
  stem <> "" ->
  Spec.count_char "." stem = 0 ->
  Spec.count_char "/" stem = 0 ->
  Spec.count_char "\" stem = 0 ->
  OsPath.splitext os (stem +:+ ".md") = (stem, ".md") /\
  title os (stem +:+ ".md") = Spec.hyphens_to_spaces stem.
Proof.
  intros Hne Hdot Hslash Hback.
  assert (Hsplit : OsPath.splitext os (stem +:+ ".md") = (stem, ".md")).
  { unfold OsPath.splitext, OsPath._splitext, PyStr.rfind.
    assert (Hext : PyStr.rfind_from OsPath.extsep 0 (-1) (stem +:+ ".md")
                   = Z.of_nat (String.length stem)).
    { rewrite rfind_from_app, (rfind_from_absent _ stem) by exact Hdot.
      cbn. lia. }
    assert (Hsep : forall c, Spec.count_char c stem = 0 ->
                     Ascii.eqb "." c = false -> Ascii.eqb "m" c = false ->
                     Ascii.eqb "d" c = false ->
                     PyStr.rfind_from c 0 (-1) (stem +:+ ".md") = (-1)%Z).
    { intros c Hc H1 H2 H3.
      rewrite rfind_from_app, (rfind_from_absent _ stem) by exact Hc.
      cbn [PyStr.rfind_from]. now rewrite H1, H2, H3. }
    assert (Hidx : match OsPath.altsep os with
                   | Some a => Z.max (PyStr.rfind_from (OsPath.sep os) 0 (-1) (stem +:+ ".md"))
                                     (PyStr.rfind_from a 0 (-1) (stem +:+ ".md"))
                   | None => PyStr.rfind_from (OsPath.sep os) 0 (-1) (stem +:+ ".md")
                   end = (-1)%Z).
    { destruct os; cbn [OsPath.altsep OsPath.sep];
        rewrite ?Hsep by (assumption || reflexivity); reflexivity. }
    rewrite Hidx, Hext.
    replace (Z.to_nat (Z.of_nat (String.length stem) - (-1 + 1)))
      with (String.length stem) by lia.
    rewrite Nat2Z.id, take_app_length, drop_string_app.
    destruct stem as [|a stem]; [contradiction|].
    cbn [Spec.count_char] in Hdot.
    destruct (Ascii.eqb_spec a ".") as [->|Ha]; [discriminate|].
    assert (Hfirst : OsPath.has_non_dot OsPath.extsep (String a stem +:+ ".md")
                       (-1 + 1) (String.length (String a stem)) = true).
    { cbn [String.length OsPath.has_non_dot]. 
      replace (Z.to_nat (-1 + 1)) with 0 by lia.
      cbn [String.append PyStr.char_at PyStr.drop PyStr.take PyStr.chr OsPath.extsep
           String.eqb].
      unfold OsPath.extsep.
      destruct (Ascii.eqb_spec a ".") as [->|_]; [contradiction|].
      reflexivity. }
    rewrite Hfirst.
    destruct (Z.ltb_spec (-1) (Z.of_nat (String.length (String a stem)))); [reflexivity | lia]. }
  split; [exact Hsplit|].
  unfold title. rewrite Hsplit. apply replace_hyphen_spec.
Qed.

Lemma title_of_md_name_witness :
  "Guide-Rocq-Prover" <> "" /\
  Spec.count_char "." "Guide-Rocq-Prover" = 0 /\
  Spec.count_char "/" "Guide-Rocq-Prover" = 0 /\
  Spec.count_char "\" "Guide-Rocq-Prover" = 0 /\
  title Nt "Guide-Rocq-Prover.md" = "Guide Rocq Prover".
Proof.
  assert (H0 : "Guide-Rocq-Prover" <> "") by discriminate.
  assert (H1 : Spec.count_char "." "Guide-Rocq-Prover" = 0) by reflexivity.
  assert (H2 : Spec.count_char "/" "Guide-Rocq-Prover" = 0) by reflexivity.
  assert (H3 : Spec.count_char "\" "Guide-Rocq-Prover" = 0) by reflexivity.
  split; [exact H0|]. split; [exact H1|]. split; [exact H2|]. split; [exact H3|].
  exact (proj2 (title_of_md_name Nt "Guide-Rocq-Prover" H0 H1 H2 H3)).
Defined.
